(** * Scratch-card backend: play transaction, license meter, redemption

    A shallow embedding of the services of the scratch-card backend
    ([scratchcard.service.js], [license.service.js], [user.service.js])
    together with the properties of the play protocol that the
    specification states about them.

    Modelling conventions.
    - JavaScript numbers and Prisma [Decimal] columns are rationals ([Q]):
      the arithmetic of the services is read as exact arithmetic.
      [INTEGER] columns are [Z].
    - A Prisma client is a store ([DB]): one list of rows per table, in
      storage order.  The global client [prisma] and a transaction handle
      [tx] are two stores; what is written through [tx] becomes the global
      store when the transaction callback returns, and is dropped when it
      throws.
    - A function that throws returns [Throw e]; a function that answers
      with a [{ success: false, ... }] object returns that object.
    - [Math.random()] and the identifiers the store generates for created
      rows are explicit arguments.
    - Timestamps and columns that are only carried along (descriptions,
      image URLs of stored rows, e-mail addresses) are left out of the rows. *)

From Stdlib Require Import ZArith QArith Qround String Ascii List Bool Lia Lqa.
Import ListNotations.

Local Open Scope string_scope.
Local Open Scope Z_scope.
Local Open Scope Q_scope.

(** ** Numbers *)

(** [Number(x)] on a nullable decimal column: [Number(null)] is [0]. *)
Definition Number (d : option Q) : Q :=
  match d with
  | Some q => q
  | None => 0
  end.

(** [x !== undefined ? x : a] *)
Definition orElse {A} (o : option A) (a : A) : A :=
  match o with
  | Some x => x
  | None => a
  end.

(** [x < y] and [x > y] on numbers. *)
Definition Qltb (x y : Q) : bool := negb (Qle_bool y x).
Definition Qgtb (x y : Q) : bool := Qltb y x.

(** ** Identifiers

    Every primary key is a [TEXT] column.  [orderBy: { id: 'desc' }] is
    read with the lexicographic order of [String.compare]. *)

Definition Id := string.

(** ** Errors

    One constructor per [throw new Error(...)] of the services; the
    wrappers stand for the [catch] blocks that prefix the message. *)

Inductive Error : Type :=
| UsuarioNaoEncontrado            (* 'Usuário não encontrado' *)
| CarteiraNaoEncontrada           (* 'Carteira não encontrada' *)
| RaspadinhaNaoEncontradaOuInativa (* 'Raspadinha não encontrada ou inativa' *)
| RaspadinhaNaoEncontrada         (* 'Raspadinha não encontrada' *)
| SistemaIndisponivel (message : option string)
                                  (* 'Sistema temporariamente indisponível: ...' *)
| SaldoInsuficiente               (* 'Saldo insuficiente para comprar esta raspadinha' *)
| NenhumaLicencaEncontrada        (* 'Nenhuma licença encontrada' *)
| JogoNaoElegivel                 (* 'Jogo não encontrado ou não elegível para resgate' *)
| PremioNaoEProduto               (* 'Este prêmio não é um produto físico' *)
| EscolhaJaRealizada              (* 'Escolha de resgate já foi realizada para este prêmio' *)
| EscolhaInvalida                 (* 'Escolha inválida. Use product ou money' *)
| ValorDeResgateIndisponivel      (* 'Valor de resgate não disponível para este produto' *)
| PremioNaoEncontrado             (* 'Prêmio não encontrado' *)
| ValidationError (message : string) (* the [validate...] functions *)
| RecordNotFound                  (* Prisma: update of a row that does not exist *)
| TypeError                       (* property read on [null] *)
| ErroAoJogarRaspadinha (cause : Error)      (* 'Erro ao jogar raspadinha: ...' *)
| ErroAoProcessarEscolha (cause : Error)     (* 'Erro ao processar escolha de resgate: ...' *)
| ErroAoCriarRaspadinha (cause : Error)      (* 'Erro ao criar raspadinha: ...' *)
| ErroAoAdicionarPremio (cause : Error)      (* 'Erro ao adicionar prêmio: ...' *)
| ErroAoAtualizarPremio (cause : Error).     (* 'Erro ao atualizar prêmio: ...' *)

Inductive Result (A : Type) : Type :=
| Ok (a : A)
| Throw (e : Error).

Arguments Ok {A} a.
Arguments Throw {A} e.

(** [try { ... } catch (error) { throw new Error(prefix + error.message) }] *)
Definition rethrow {A} (wrap : Error -> Error) (r : Result A) : Result A :=
  match r with
  | Ok a => Ok a
  | Throw e => Throw (wrap e)
  end.

(** ** Rows *)

Record User := mkUser {
  user_id : Id;
  is_influencer : bool;
  total_scratchs : Z;
  total_wins : Z;
  total_losses : Z
}.

Record Wallet := mkWallet {
  wallet_id : Id;
  wallet_userId : Id;
  balance : Q
}.

Record ScratchCard := mkScratchCard {
  card_id : Id;
  price : Q;
  card_is_active : bool;
  deleted_at : option Z;
  target_rtp : Q;
  current_rtp : Q;
  total_revenue : Q;
  total_payouts : Q;
  total_games_played : Z
}.

Record Prize := mkPrize {
  prize_id : Id;
  prize_scratchCardId : Id;
  prize_name : string;
  prize_type_of : string;
  value : option Q;
  product_name : option string;
  redemption_value : option Q;
  probability : Q;
  prize_is_active : bool
}.

Record Game := mkGame {
  game_id : Id;
  game_userId : Id;
  game_scratchCardId : Id;
  prizeId : option Id;
  is_winner : bool;
  amount_won : Q;
  prize_type : option string;
  redemption_choice : bool;
  status : string
}.

Record License := mkLicense {
  license_id : Id;
  credits : Z;
  credits_used : Z;
  credits_value : Q;
  ggr_percentage : Q;
  total_earnings : Q;
  is_active : bool
}.

Record UsageLicense := mkUsageLicense {
  usage_id : Id;
  usage_userId : Id;
  licenseId : Id;
  usage_scratchCardId : Id;
  usage_credits_used : Z
}.

(** The store behind a Prisma client. *)
Record DB := mkDB {
  users : list User;
  wallets : list Wallet;
  scratchCards : list ScratchCard;
  prizes : list Prize;
  games : list Game;
  licenses : list License;
  usageLicenses : list UsageLicense
}.

Definition set_users (f : list User -> list User) (d : DB) : DB :=
  mkDB (f (users d)) (wallets d) (scratchCards d) (prizes d) (games d)
       (licenses d) (usageLicenses d).
Definition set_wallets (f : list Wallet -> list Wallet) (d : DB) : DB :=
  mkDB (users d) (f (wallets d)) (scratchCards d) (prizes d) (games d)
       (licenses d) (usageLicenses d).
Definition set_scratchCards (f : list ScratchCard -> list ScratchCard) (d : DB) : DB :=
  mkDB (users d) (wallets d) (f (scratchCards d)) (prizes d) (games d)
       (licenses d) (usageLicenses d).
Definition set_prizes (f : list Prize -> list Prize) (d : DB) : DB :=
  mkDB (users d) (wallets d) (scratchCards d) (f (prizes d)) (games d)
       (licenses d) (usageLicenses d).
Definition set_games (f : list Game -> list Game) (d : DB) : DB :=
  mkDB (users d) (wallets d) (scratchCards d) (prizes d) (f (games d))
       (licenses d) (usageLicenses d).
Definition set_licenses (f : list License -> list License) (d : DB) : DB :=
  mkDB (users d) (wallets d) (scratchCards d) (prizes d) (games d)
       (f (licenses d)) (usageLicenses d).
Definition set_usageLicenses (f : list UsageLicense -> list UsageLicense) (d : DB) : DB :=
  mkDB (users d) (wallets d) (scratchCards d) (prizes d) (games d)
       (licenses d) (f (usageLicenses d)).

(** ** Table operations *)

Section Table.

Context {A : Type} (key : A -> Id).

(** [findUnique({ where: { id } })] *)
Definition findUnique (k : Id) (t : list A) : option A :=
  find (fun a => String.eqb (key a) k) t.

(** The rows after [update({ where: { id }, data })]. *)
Definition updateRows (k : Id) (f : A -> A) (t : list A) : list A :=
  map (fun a => if String.eqb (key a) k then f a else a) t.

(** [create({ data })]: the new row is stored after the others. *)
Definition createRow (a : A) (t : list A) : list A := t ++ [a].

End Table.


(** ** Statements on a client

    A sequence of [await client.table.operation(...)] is a computation
    that threads the client's store and stops at the first throw. *)

Definition M (A : Type) : Type := DB -> Result (A * DB).

Definition ret {A} (a : A) : M A := fun d => Ok (a, d).

Definition throw {A} (e : Error) : M A := fun _ => Throw e.

Definition bind {A B} (m : M A) (k : A -> M B) : M B :=
  fun d => match m d with
           | Ok (a, d') => k a d'
           | Throw e => Throw e
           end.

Notation "x <- m ;; k" := (bind m (fun x => k))
  (at level 61, m at next level, right associativity).
Notation "m ;;; k" := (bind m (fun _ => k))
  (at level 61, right associativity).

(** [client.table.update({ where: { id: k }, data })]; Prisma throws when
    no row has that id.  The answer is the updated row. *)
Definition update {A} (table : DB -> list A)
    (set : (list A -> list A) -> DB -> DB) (key : A -> Id)
    (k : Id) (data : A -> A) : M A :=
  fun d => match findUnique key k (table d) with
           | Some a => Ok (data a, set (updateRows key k data) d)
           | None => Throw RecordNotFound
           end.

(** [client.table.create({ data })] *)
Definition create {A} (set : (list A -> list A) -> DB -> DB) (a : A) : M A :=
  fun d => Ok (a, set (createRow a) d).

(** A read on the client. *)
Definition query {A} (f : DB -> A) : M A := fun d => Ok (f d, d).

(** [prisma.$transaction(async (tx) => body)]: the callback works on its
    own view [tx] of the store, which starts as the global store; the view
    replaces the global store when the callback returns and is dropped
    when it throws.  The callback may still reach the global client, so
    it receives that store as well. *)
Definition transaction {A} (body : DB -> M A) (prisma : DB) : Result A * DB :=
  match body prisma prisma with
  | Ok (a, tx) => (Ok a, tx)
  | Throw e => (Throw e, prisma)
  end.

(** ** license.service.js *)

Module LicenseService.

(** [findFirst({ orderBy: { id: 'desc' } })] on the licenses. *)
Fixpoint findFirstByIdDesc (t : list License) : option License :=
  match t with
  | [] => None
  | x :: r =>
      match findFirstByIdDesc r with
      | None => Some x
      | Some y => if String.ltb (license_id x) (license_id y) then Some y else Some x
      end
  end.

Definition getCurrentLicense (prisma : DB) : Result License :=
  match findFirstByIdDesc (licenses prisma) with
  | Some license => Ok license
  | None => Throw NenhumaLicencaEncontrada
  end.

(** The object [checkLicenseStatus] answers with. *)
Inductive LicenseStatus : Type :=
| StatusOk (is_active has_credits : bool) (credits credits_used : Z)
           (credits_value ggr_percentage total_earnings : Q) (license : License)
| StatusFail (error : Error).

Definition checkLicenseStatus (prisma : DB) : LicenseStatus :=
  match getCurrentLicense prisma with
  | Ok license =>
      StatusOk (is_active license) (0 <? credits license)%Z (credits license)
               (credits_used license) (credits_value license)
               (ggr_percentage license) (total_earnings license) license
  | Throw error => StatusFail error
  end.

Definition license_update : Id -> (License -> License) -> M License :=
  update licenses set_licenses license_id.

Definition with_credits (c : Z) (l : License) : License :=
  mkLicense (license_id l) c (credits_used l) (credits_value l)
            (ggr_percentage l) (total_earnings l) (is_active l).

Definition editCredits (newCredits : Z) (prisma : DB) : Result (License * DB) :=
  match getCurrentLicense prisma with
  | Throw e => Throw e
  | Ok lastLicense =>
      license_update (license_id lastLicense) (with_credits newCredits) prisma
  end.

Definition add_total_earnings (amount : Q) (l : License) : License :=
  mkLicense (license_id l) (credits l) (credits_used l) (credits_value l)
            (ggr_percentage l) (total_earnings l + amount) (is_active l).

Definition addEarnings (amount : Q) (prisma : DB) : Result (License * DB) :=
  match getCurrentLicense prisma with
  | Throw e => Throw e
  | Ok lastLicense =>
      license_update (license_id lastLicense) (add_total_earnings amount) prisma
  end.

(** The [params] of [updateLicenseParams]; [None] is [undefined]. *)
Record LicenseParams := mkLicenseParams {
  params_credits : option Z;
  params_credits_value : option Q;
  params_ggr_percentage : option Q;
  params_is_active : option bool
}.

Definition updateData (params : LicenseParams) (l : License) : License :=
  mkLicense (license_id l)
            (orElse (params_credits params) (credits l))
            (credits_used l)
            (orElse (params_credits_value params) (credits_value l))
            (orElse (params_ggr_percentage params) (ggr_percentage l))
            (total_earnings l)
            (orElse (params_is_active params) (is_active l)).

Definition updateLicenseParams (params : LicenseParams) (prisma : DB)
  : Result (License * DB) :=
  match getCurrentLicense prisma with
  | Throw e => Throw e
  | Ok lastLicense =>
      license_update (license_id lastLicense) (updateData params) prisma
  end.

(** The three objects [hasEnoughCredits] answers with:
    [{ success: false, message: 'Licença inativa', license }],
    [{ success: false, message: 'Créditos insuficientes', creditsNeeded,
       creditsAvailable, license }] and
    [{ success: true, creditsNeeded, creditsAvailable, license }]. *)
Inductive CreditCheck : Type :=
| LicencaInativa (license : License)
| CreditosInsuficientes (creditsNeeded creditsAvailable : Z) (license : License)
| CreditosSuficientes (creditsNeeded creditsAvailable : Z) (license : License).

Definition success (c : CreditCheck) : bool :=
  match c with
  | CreditosSuficientes _ _ _ => true
  | _ => false
  end.

Definition message (c : CreditCheck) : option string :=
  match c with
  | LicencaInativa _ => Some "Licença inativa"
  | CreditosInsuficientes _ _ _ => Some "Créditos insuficientes"
  | CreditosSuficientes _ _ _ => None
  end.

Definition creditsNeeded (c : CreditCheck) : option Z :=
  match c with
  | LicencaInativa _ => None
  | CreditosInsuficientes n _ _ | CreditosSuficientes n _ _ => Some n
  end.

Definition license (c : CreditCheck) : License :=
  match c with
  | LicencaInativa l | CreditosInsuficientes _ _ l | CreditosSuficientes _ _ l => l
  end.

Definition hasEnoughCredits (amount : Q) (prisma : DB) : Result CreditCheck :=
  match getCurrentLicense prisma with
  | Throw e => Throw e
  | Ok license =>
      if negb (is_active license) then Ok (LicencaInativa license)
      else
        let creditsNeeded :=
          if Qgtb (credits_value license) 0
          then Qceiling (amount / credits_value license)
          else 1%Z in
        if (credits license <? creditsNeeded)%Z
        then Ok (CreditosInsuficientes creditsNeeded (credits license) license)
        else Ok (CreditosSuficientes creditsNeeded (credits license) license)
  end.

(** The object [consumeCreditsAndAddEarnings] answers with. *)
Inductive ConsumeResult : Type :=
| ConsumeRefused (message : option string) (licenseCheck : CreditCheck)
| ConsumeOk (creditsConsumed : Z) (ggrAmount : Q) (license : License)
| ConsumeError (error : Error).

Definition consume_success (r : ConsumeResult) : bool :=
  match r with
  | ConsumeOk _ _ _ => true
  | _ => false
  end.

Definition consume_data (creditsToConsume : Z) (ggrAmount : Q) (l : License) : License :=
  mkLicense (license_id l)
            (credits l - creditsToConsume)
            (credits_used l + creditsToConsume)
            (credits_value l) (ggr_percentage l)
            (total_earnings l + ggrAmount) (is_active l).

(** [consumeCreditsAndAddEarnings({ amount, userId, scratchCardId, tx })].
    The check goes through [this.hasEnoughCredits], which reads with the
    global client: [prisma] is the store that client sees.  The two writes
    go through [tx || prisma]: the computation runs on the store of that
    client.  [newId] is the id the store gives the usage row.  A throw
    inside the [try] block is caught and answered as an object. *)
Definition consumeCreditsAndAddEarnings (amount : Q) (userId scratchCardId : Id)
    (newId : Id) (prisma : DB) : M ConsumeResult :=
  fun prismaClient =>
  match hasEnoughCredits amount prisma with
  | Throw e => Throw e
  | Ok (CreditosSuficientes creditsToConsume _ license) =>
      let ggrAmount := amount * (ggr_percentage license / 100) in
      let statements :=
        license_update (license_id license)
                       (consume_data creditsToConsume ggrAmount) ;;;
        create set_usageLicenses
               (mkUsageLicense newId userId (license_id license)
                               scratchCardId creditsToConsume) ;;;
        ret (ConsumeOk creditsToConsume ggrAmount license) in
      match statements prismaClient with
      | Ok (r, d) => Ok (r, d)
      | Throw error => Ok (ConsumeError error, prismaClient)
      end
  | Ok licenseCheck =>
      Ok (ConsumeRefused (message licenseCheck) licenseCheck, prismaClient)
  end.

(** The call without a transaction handle: [tx || prisma] is [prisma]. *)
Definition consumeCreditsAndAddEarnings_global (amount : Q)
    (userId scratchCardId : Id) (newId : Id) : M ConsumeResult :=
  fun prisma => consumeCreditsAndAddEarnings amount userId scratchCardId newId prisma prisma.

End LicenseService.

(** ** scratchcard.service.js: playing a card *)

Module ScratchCardService.

(** A card row with its included [prizes] relation. *)
Record ScratchCardWithPrizes := mkScratchCardWithPrizes {
  card : ScratchCard;
  card_prizes : list Prize
}.

(** A user row with its included [wallet] relation. *)
Record UserWithWallet := mkUserWithWallet {
  user : User;
  wallet : list Wallet
}.

Record GameResult := mkGameResult {
  isWinner : bool;
  prize : option Prize
}.

(** The [for (const prize of prizes)] loop of [determineGameResult]. *)
Fixpoint walkPrizes (prizes : list Prize) (rtpMultiplier randomNumber : Q)
    (cumulativeProbability : Q) : GameResult :=
  match prizes with
  | [] => mkGameResult false None
  | prize :: rest =>
      let adjustedProbability := probability prize * rtpMultiplier in
      let cumulativeProbability := cumulativeProbability + adjustedProbability in
      if Qle_bool randomNumber cumulativeProbability
      then mkGameResult true (Some prize)
      else walkPrizes rest rtpMultiplier randomNumber cumulativeProbability
  end.

(** [determineGameResult(scratchCard, user = null)]; [randomNumber] is the
    value of [Math.random() * 100]. *)
Definition determineGameResult (scratchCard : ScratchCardWithPrizes)
    (user : option User) (randomNumber : Q) : GameResult :=
  let currentRtp := current_rtp (card scratchCard) in
  let targetRtp := target_rtp (card scratchCard) in
  let prizes := card_prizes scratchCard in
  match prizes with
  | [] => mkGameResult false None
  | _ =>
      let rtpMultiplier :=
        if Qltb currentRtp targetRtp then 12 # 10
        else if Qgtb currentRtp targetRtp then 8 # 10
        else 1 in
      let rtpMultiplier :=
        match user with
        | Some u => if is_influencer u then rtpMultiplier * 6 else rtpMultiplier
        | None => rtpMultiplier
        end in
      walkPrizes prizes rtpMultiplier randomNumber 0
  end.

(** [user.findUnique({ where: { id }, include: { wallet: true } })] *)
Definition findUserWithWallet (userId : Id) (d : DB) : option UserWithWallet :=
  match findUnique user_id userId (users d) with
  | Some u =>
      Some (mkUserWithWallet u
              (filter (fun w => String.eqb (wallet_userId w) userId) (wallets d)))
  | None => None
  end.

(** [scratchCard.findUnique({ where: { id, is_active: true, deleted_at: null },
      include: { prizes: { where: { is_active: true } } } })] *)
Definition findActiveScratchCard (scratchCardId : Id) (d : DB)
  : option ScratchCardWithPrizes :=
  match findUnique card_id scratchCardId (scratchCards d) with
  | Some c =>
      match card_is_active c, deleted_at c with
      | true, None =>
          Some (mkScratchCardWithPrizes c
                  (filter (fun p => String.eqb (prize_scratchCardId p) scratchCardId
                                    && prize_is_active p) (prizes d)))
      | _, _ => None
      end
  | None => None
  end.

(** What [playScratchCard] has fixed when it opens the transaction. *)
Record Play := mkPlay {
  play_user : UserWithWallet;
  play_wallet : Wallet;
  play_card : ScratchCardWithPrizes;
  gameResult : GameResult;
  amountWon : Q;
  play_prizeId : option Id;
  prizeType : option string
}.

Definition wonMoney (gameResult : GameResult) : bool :=
  match prize gameResult with
  | Some p => isWinner gameResult && String.eqb (prize_type_of p) "MONEY"
  | None => false
  end.

(** The statements of [playScratchCard] before the transaction. *)
Definition prepare (userId scratchCardId : Id) (randomNumber : Q) (prisma : DB)
  : Result Play :=
  match findUserWithWallet userId prisma with
  | None => Throw UsuarioNaoEncontrado
  | Some userWithWallet =>
      match wallet userWithWallet with
      | [] => Throw CarteiraNaoEncontrada
      | wallet :: _ =>
          match findActiveScratchCard scratchCardId prisma with
          | None => Throw RaspadinhaNaoEncontradaOuInativa
          | Some scratchCardWithPrizes =>
              match LicenseService.hasEnoughCredits
                      (price (card scratchCardWithPrizes)) prisma with
              | Throw e => Throw e
              | Ok licenseCheck =>
                  if negb (LicenseService.success licenseCheck) then
                    Throw (SistemaIndisponivel (LicenseService.message licenseCheck))
                  else if Qltb (balance wallet) (price (card scratchCardWithPrizes)) then
                    Throw SaldoInsuficiente
                  else
                    let gameResult :=
                      determineGameResult scratchCardWithPrizes
                                          (Some (user userWithWallet)) randomNumber in
                    let won :=
                      match prize gameResult with
                      | Some p =>
                          if isWinner gameResult then
                            (if String.eqb (prize_type_of p) "MONEY"
                             then Number (value p) else 0,
                             Some (prize_id p), Some (prize_type_of p))
                          else (0, None, None)
                      | None => (0, None, None)
                      end in
                    Ok (mkPlay userWithWallet wallet scratchCardWithPrizes gameResult
                               (fst (fst won)) (snd (fst won)) (snd won))
              end
          end
      end
  end.

Definition wallet_update : Id -> (Wallet -> Wallet) -> M Wallet :=
  update wallets set_wallets wallet_id.
Definition user_update : Id -> (User -> User) -> M User :=
  update users set_users user_id.
Definition scratchCard_update : Id -> (ScratchCard -> ScratchCard) -> M ScratchCard :=
  update scratchCards set_scratchCards card_id.
Definition game_update : Id -> (Game -> Game) -> M Game :=
  update games set_games game_id.

(** [balance: { increment: amount }]; a decrement is the increment of the
    opposite. *)
Definition increment_balance (amount : Q) (w : Wallet) : Wallet :=
  mkWallet (wallet_id w) (wallet_userId w) (balance w + amount).
Definition decrement_balance (amount : Q) (w : Wallet) : Wallet :=
  mkWallet (wallet_id w) (wallet_userId w) (balance w - amount).

Definition count_play (won : bool) (u : User) : User :=
  mkUser (user_id u) (is_influencer u)
         (total_scratchs u + 1)
         (if won then total_wins u + 1 else total_wins u)
         (if negb won then total_losses u + 1 else total_losses u).

Definition add_play_stats (revenue payouts : Q) (c : ScratchCard) : ScratchCard :=
  mkScratchCard (card_id c) (price c) (card_is_active c) (deleted_at c)
                (target_rtp c) (current_rtp c)
                (total_revenue c + revenue) (total_payouts c + payouts)
                (total_games_played c + 1).

Definition with_current_rtp (rtp : Q) (c : ScratchCard) : ScratchCard :=
  mkScratchCard (card_id c) (price c) (card_is_active c) (deleted_at c)
                (target_rtp c) rtp
                (total_revenue c) (total_payouts c) (total_games_played c).

(** [const currentRtp = Number(updatedStats.total_revenue) > 0 ? ... : 0] *)
Definition currentRtp (updatedStats : ScratchCard) : Q :=
  if Qgtb (total_revenue updatedStats) 0
  then (total_payouts updatedStats / total_revenue updatedStats) * 100
  else 0.

(** The callback of the transaction of [playScratchCard].  [prisma] is the
    store of the global client, which [licenseService] reads with. *)
Definition playTransaction (userId scratchCardId : Id) (gameId usageId : Id)
    (p : Play) (prisma : DB) : M Game :=
  let scratchCardWithPrizes := play_card p in
  wallet_update (wallet_id (play_wallet p))
                (decrement_balance (price (card scratchCardWithPrizes))) ;;;
  (if wonMoney (gameResult p)
   then wallet_update (wallet_id (play_wallet p))
                      (increment_balance (amountWon p)) ;;; ret tt
   else ret tt) ;;;
  game <- create set_games
            (mkGame gameId userId scratchCardId (play_prizeId p)
                    (isWinner (gameResult p)) (amountWon p) (prizeType p)
                    false "COMPLETED") ;;
  user_update userId (count_play (isWinner (gameResult p))) ;;;
  scratchCard_update scratchCardId
                     (add_play_stats (price (card scratchCardWithPrizes))
                                     (amountWon p)) ;;;
  (if negb (is_influencer (user (play_user p))) then
     updatedStats <- query (fun tx => findUnique card_id scratchCardId (scratchCards tx)) ;;
     match updatedStats with
     | None => throw TypeError
     | Some updatedStats =>
         scratchCard_update scratchCardId
                            (with_current_rtp (currentRtp updatedStats)) ;;; ret tt
     end
   else ret tt) ;;;
  LicenseService.consumeCreditsAndAddEarnings
    (price (card scratchCardWithPrizes)) userId scratchCardId usageId prisma ;;;
  ret game.

(** [playScratchCard(userId, scratchCardId)].  [gameId] and [usageId] are
    the ids the store gives the created rows.  [concurrent] is what other
    requests commit between the checks made before the transaction and the
    moment the transaction opens; the identity when the play runs alone. *)
Definition playScratchCard (userId scratchCardId : Id) (randomNumber : Q)
    (gameId usageId : Id) (concurrent : DB -> DB) (prisma : DB)
  : Result Game * DB :=
  match prepare userId scratchCardId randomNumber prisma with
  | Throw e => (Throw (ErroAoJogarRaspadinha e), prisma)
  | Ok p =>
      let (result, prisma') :=
        transaction (playTransaction userId scratchCardId gameId usageId p)
                    (concurrent prisma) in
      (rethrow ErroAoJogarRaspadinha result, prisma')
  end.


(** *** Administration of cards and prizes *)

(** [s.trim()], for the white space of ASCII. *)
Definition isSpace (c : ascii) : bool :=
  match nat_of_ascii c with
  | 9%nat | 10%nat | 11%nat | 12%nat | 13%nat | 32%nat => true
  | _ => false
  end.

Fixpoint trimStart (s : string) : string :=
  match s with
  | String c r => if isSpace c then trimStart r else s
  | EmptyString => EmptyString
  end.

Fixpoint trimEnd (s : string) : string :=
  match s with
  | String c r =>
      match trimEnd r with
      | EmptyString => if isSpace c then EmptyString else String c EmptyString
      | r' => String c r'
      end
  | EmptyString => EmptyString
  end.

Definition trim (s : string) : string := trimEnd (trimStart s).


Record PrizeData := mkPrizeData {
  pd_name : option string;
  pd_type : option string;
  pd_value : option Q;
  pd_product_name : option string;
  pd_redemption_value : option Q;
  pd_image_url : option string;
  pd_probability : option Q;
  pd_is_active : option bool
}.

(** [x ? Number(x) : null] on a number: [undefined] and [0] are falsy. *)
Definition truthyNumber (x : option Q) : option Q :=
  match x with
  | Some q => if Qeq_bool q 0 then None else Some q
  | None => None
  end.

(** [s || null] on a string: [undefined] and [''] are falsy. *)
Definition truthyString (x : option string) : option string :=
  match x with
  | Some EmptyString => None
  | o => o
  end.

(** [!s || s.trim().length < n] *)
Definition tooShort (x : option string) (n : nat) : bool :=
  match truthyString x with
  | Some s => (String.length (trim s) <? n)%nat
  | None => true
  end.

Definition check (failed : bool) (message : string) : Result unit :=
  if failed then Throw (ValidationError message) else Ok tt.

Definition andThen {A B} (r : Result A) (k : A -> Result B) : Result B :=
  match r with
  | Ok a => k a
  | Throw e => Throw e
  end.

Section Validation.

(** [isValidUrl] parses its argument with the platform's [URL] class and
    accepts the schemes http and https; the parser is taken as given. *)
Variable isValidUrl : string -> bool.



Definition validatePrizeType (type : option string) : Result unit :=
  match type with
  | Some "MONEY" | Some "PRODUCT" => Ok tt
  | _ => Throw (ValidationError "Tipo de prêmio deve ser MONEY ou PRODUCT")
  end.

Definition validateProbability (probability : option Q) : Result unit :=
  match probability with
  | None => Throw (ValidationError "Probabilidade deve estar entre 0% e 100%")
  | Some numProb =>
      check (Qltb numProb 0 || Qgtb numProb 100)
            "Probabilidade deve estar entre 0% e 100%"
  end.


Definition validatePrizeData (prize : PrizeData) : Result unit :=
  andThen (check (tooShort (pd_name prize) 2)
                 "Nome do prêmio deve ter pelo menos 2 caracteres") (fun _ =>
  andThen (validatePrizeType (pd_type prize)) (fun _ =>
  andThen (validateProbability (pd_probability prize)) (fun _ =>
  andThen (check (match truthyString (pd_image_url prize) with
                  | Some u => negb (isValidUrl u)
                  | None => false
                  end)
                 "URL da imagem do prêmio deve ser válida") (fun _ =>
  match pd_type prize with
  | Some "MONEY" =>
      check (match truthyNumber (pd_value prize) with
             | Some v => Qle_bool v 0
             | None => true
             end)
            "Prêmios em dinheiro devem ter valor maior que zero"
  | Some "PRODUCT" =>
      andThen (check (tooShort (pd_product_name prize) 2)
                     "Produtos devem ter nome do produto") (fun _ =>
      check (match truthyNumber (pd_redemption_value prize) with
             | Some v => Qle_bool v 0
             | None => true
             end)
            "Produtos devem ter valor de resgate maior que zero")
  | _ => Ok tt
  end)))).



(** The row [create] / [createMany] stores for a prize of the request. *)
Definition prizeRow (id scratchCardId : Id) (prize : PrizeData) : Prize :=
  mkPrize id scratchCardId
          (orElse (pd_name prize) EmptyString)
          (orElse (pd_type prize) EmptyString)
          (truthyNumber (pd_value prize))
          (truthyString (pd_product_name prize))
          (truthyNumber (pd_redemption_value prize))
          (Number (pd_probability prize))
          (orElse (pd_is_active prize) true).



(** [addPrizeToScratchCard(scratchCardId, prizeData)] *)
Definition addPrizeToScratchCard (scratchCardId : Id) (prizeData : PrizeData)
    (newPrizeId : Id) (prisma : DB) : Result Prize * DB :=
  match findUnique card_id scratchCardId (scratchCards prisma) with
  | Some (mkScratchCard _ _ _ None _ _ _ _ _) =>
      match validatePrizeData prizeData with
      | Throw e => (Throw (ErroAoAdicionarPremio e), prisma)
      | Ok _ =>
          let prize := prizeRow newPrizeId scratchCardId prizeData in
          (Ok prize, set_prizes (createRow prize) prisma)
      end
  | _ => (Throw (ErroAoAdicionarPremio RaspadinhaNaoEncontrada), prisma)
  end.

(** The [data] of the update of [updatePrize]: a field that is
    [undefined] leaves the column as it is. *)
Definition prizeUpdate (updateData : PrizeData) (p : Prize) : Prize :=
  mkPrize (prize_id p) (prize_scratchCardId p)
          (orElse (pd_name updateData) (prize_name p))
          (orElse (pd_type updateData) (prize_type_of p))
          (match truthyNumber (pd_value updateData) with
           | Some v => Some v
           | None => value p
           end)
          (match pd_product_name updateData with
           | Some n => Some n
           | None => product_name p
           end)
          (match truthyNumber (pd_redemption_value updateData) with
           | Some v => Some v
           | None => redemption_value p
           end)
          (orElse (truthyNumber (pd_probability updateData)) (probability p))
          (orElse (pd_is_active updateData) (prize_is_active p)).

(** [updatePrize(prizeId, updateData)] *)
Definition updatePrize (prizeId : Id) (updateData : PrizeData) (prisma : DB)
  : Result Prize * DB :=
  match findUnique prize_id prizeId (prizes prisma) with
  | None => (Throw (ErroAoAtualizarPremio PremioNaoEncontrado), prisma)
  | Some existingPrize =>
      match andThen
              (match pd_probability updateData with
               | Some _ => validateProbability (pd_probability updateData)
               | None => Ok tt
               end)
              (fun _ =>
               match truthyString (pd_type updateData) with
               | Some t =>
                   if negb (String.eqb t (prize_type_of existingPrize))
                   then validatePrizeType (Some t) else Ok tt
               | None => Ok tt
               end) with
      | Throw e => (Throw (ErroAoAtualizarPremio e), prisma)
      | Ok _ =>
          (Ok (prizeUpdate updateData existingPrize),
           set_prizes (updateRows prize_id prizeId (prizeUpdate updateData)) prisma)
      end
  end.

End Validation.

End ScratchCardService.

(** ** user.service.js: the redemption choice *)

Module UserService.

Import ScratchCardService.

(** [game.findFirst({ where: { id, userId, is_winner: true,
      status: 'COMPLETED' } })] *)
Definition eligible (gameId userId : Id) (g : Game) : bool :=
  String.eqb (game_id g) gameId && String.eqb (game_userId g) userId
  && is_winner g && String.eqb (status g) "COMPLETED".

Definition findEligibleGame (gameId userId : Id) (tx : DB) : option Game :=
  find (eligible gameId userId) (games tx).

(** The included relation [prize] of a game. *)
Definition prizeOf (g : Game) (tx : DB) : option Prize :=
  match prizeId g with
  | Some k => findUnique prize_id k (prizes tx)
  | None => None
  end.

(** The included relation [user.wallet] of a game. *)
Definition walletsOf (g : Game) (tx : DB) : list Wallet :=
  filter (fun w => String.eqb (wallet_userId w) (game_userId g)) (wallets tx).

Definition chose_money (redemptionValue : Q) (g : Game) : Game :=
  mkGame (game_id g) (game_userId g) (game_scratchCardId g) (prizeId g)
         (is_winner g) redemptionValue (Some "REDEMPTION") true (status g).

Definition chose_product (g : Game) : Game :=
  mkGame (game_id g) (game_userId g) (game_scratchCardId g) (prizeId g)
         (is_winner g) (amount_won g) (Some "PRODUCT") false "PENDING_DELIVERY".

Definition add_payouts (amount : Q) (c : ScratchCard) : ScratchCard :=
  mkScratchCard (card_id c) (price c) (card_is_active c) (deleted_at c)
                (target_rtp c) (current_rtp c)
                (total_revenue c) (total_payouts c + amount)
                (total_games_played c).

(** What [chooseRedemption] answers with (the message is left out). *)
Record Redemption := mkRedemption {
  redeemed_game : Game;
  redeemed_choice : string
}.

(** The callback of the transaction of [chooseRedemption]. *)
Definition redemptionTransaction (userId gameId : Id) (choice : string)
  : M Redemption :=
  game <- query (findEligibleGame gameId userId) ;;
  match game with
  | None => throw JogoNaoElegivel
  | Some game =>
      prize <- query (prizeOf game) ;;
      match prize with
      | None => throw PremioNaoEProduto
      | Some prize =>
          if negb (String.eqb (prize_type_of prize) "PRODUCT") then
            throw PremioNaoEProduto
          else if redemption_choice game then
            throw EscolhaJaRealizada
          else
            wallets <- query (walletsOf game) ;;
            match wallets with
            | [] => throw CarteiraNaoEncontrada
            | wallet :: _ =>
                if negb (String.eqb choice "product")
                   && negb (String.eqb choice "money") then
                  throw EscolhaInvalida
                else if String.eqb choice "money" then
                  let redemptionValue := Number (redemption_value prize) in
                  if Qle_bool redemptionValue 0 then
                    throw ValorDeResgateIndisponivel
                  else
                    wallet_update (wallet_id wallet)
                                  (increment_balance redemptionValue) ;;;
                    updatedGame <- game_update gameId (chose_money redemptionValue) ;;
                    scratchCard_update (game_scratchCardId game)
                                       (add_payouts redemptionValue) ;;;
                    ret (mkRedemption updatedGame choice)
                else
                  updatedGame <- game_update gameId chose_product ;;
                  ret (mkRedemption updatedGame choice)
            end
      end
  end.

(** [chooseRedemption(userId, gameId, choice)] *)
Definition chooseRedemption (userId gameId : Id) (choice : string) (prisma : DB)
  : Result Redemption * DB :=
  let (result, prisma') :=
    transaction (fun _ => redemptionTransaction userId gameId choice) prisma in
  (rethrow ErroAoProcessarEscolha result, prisma').

End UserService.

(** * The outcome resolver as the specification words it

    The multiplier is 1.2 below the target, 0.8 above it and 1 on it, and
    six times that for a privileged player.  With no prize the play is
    lost.  Otherwise the winner is the first prize of the list whose
    cumulative sum of probability times multiplier reaches the draw [r];
    when no cumulative sum reaches it the play is lost. *)

Module Specification.

Definition multiplier (current_rtp target_rtp : Q) (privileged : bool) : Q :=
  let m :=
    if Qltb current_rtp target_rtp then 12 # 10
    else if Qltb target_rtp current_rtp then 8 # 10
    else 1 in
  if privileged then m * 6 else m.




(** The privilege flag of the player [determineGameResult] is given. *)
Definition privileged (user : option User) : bool :=
  match user with
  | Some u => is_influencer u
  | None => false
  end.

(** The sum of the probabilities of the active prizes of a card. *)
Definition activeProbability (scratchCardId : Id) (d : DB) : Q :=
  fold_right Qplus 0
    (map probability
         (filter (fun p => String.eqb (prize_scratchCardId p) scratchCardId
                           && prize_is_active p) (prizes d))).


(** The invariant of the prizes: at most 100 for every card. *)
Definition probabilityBound (d : DB) : Prop :=
  forall scratchCardId, activeProbability scratchCardId d <= 100.

End Specification.

(** * Example stores

    The scenarios the properties below are tried on: one card at price 1
    with a single money prize of 10 at probability 100, a player with a
    balance of 5, an influencer, and two license rows. *)

Module Examples.

Definition alice : User := mkUser "u1" false 0 0 0.
Definition vip : User := mkUser "u2" true 0 0 0.

Definition alice_wallet : Wallet := mkWallet "w1" "u1" 5.
Definition vip_wallet : Wallet := mkWallet "w2" "u2" 5.

Definition card1 : ScratchCard := mkScratchCard "sc1" 1 true None 85 0 0 0 0.

Definition prize_money : Prize :=
  mkPrize "p1" "sc1" "Dez reais" "MONEY" (Some 10) None None 100 true.

Definition license_old : License := mkLicense "lic1" 7 0 1 10 0 true.
Definition license_new : License := mkLicense "lic2" 50 3 (1 # 2) 10 0 true.

(** A player whose balance is below the price of the card. *)
Definition bob : User := mkUser "u3" false 0 0 0.
Definition bob_wallet : Wallet := mkWallet "w3" "u3" (1 # 2).

(** A player with exactly the price of one card, and a card without
    prizes. *)
Definition carol : User := mkUser "u4" false 0 0 0.
Definition carol_wallet : Wallet := mkWallet "w4" "u4" 1.
Definition card2 : ScratchCard := mkScratchCard "sc2" 1 true None 85 0 0 0 0.

Definition store : DB :=
  mkDB [alice; vip; bob; carol]
       [alice_wallet; vip_wallet; bob_wallet; carol_wallet] [card1; card2]
       [prize_money] [] [license_old; license_new] [].

Definition no_license : DB :=
  mkDB [alice; vip; bob; carol]
       [alice_wallet; vip_wallet; bob_wallet; carol_wallet] [card1; card2]
       [prize_money] [] [] [].

(** An administrator switches the license off with [updateLicenseParams]. *)
Definition switch_license_off (d : DB) : DB :=
  match LicenseService.updateLicenseParams
          (LicenseService.mkLicenseParams None None None (Some false)) d with
  | Ok (_, d') => d'
  | Throw _ => d
  end.

(** The game a play of [card1] at the draw 50 creates for a player. *)
Definition won_game (userId : Id) : Game :=
  mkGame "g1" userId "sc1" (Some "p1") true 10 (Some "MONEY") false "COMPLETED".

(** A product prize with a redemption value, and a game that won it. *)
Definition prize_product : Prize :=
  mkPrize "p2" "sc1" "Fone" "PRODUCT" None (Some "Fone de ouvido") (Some 30) 0 true.

Definition product_game : Game :=
  mkGame "g7" "u1" "sc1" (Some "p2") true 0 (Some "PRODUCT") false "COMPLETED".

Definition redeemable : DB :=
  mkDB [alice; vip; bob; carol]
       [alice_wallet; vip_wallet; bob_wallet; carol_wallet] [card1; card2]
       [prize_money; prize_product] [product_game] [license_old; license_new] [].


(** The administrator turns the prize of [card1] into a product with
    [updatePrize], giving it a product name and no redemption value; a
    player then wins it. *)
Definition retyped : DB :=
  snd (ScratchCardService.updatePrize "p1"
         (ScratchCardService.mkPrizeData None (Some "PRODUCT") None
            (Some "Vale presente") None None None None)
         store).

Definition retyped_played : DB :=
  snd (ScratchCardService.playScratchCard "u1" "sc1" 50 "g1" "ul1" (fun d => d)
         retyped).

(** The current license is left with the two credits one play of
    [card1] needs. *)
Definition two_credits_left : DB :=
  match LicenseService.editCredits 2 store with
  | Ok (_, d) => d
  | Throw _ => store
  end.

(** A second money prize for [card1], at probability 60. *)
Definition extra_prize : ScratchCardService.PrizeData :=
  ScratchCardService.mkPrizeData (Some "Cinco reais") (Some "MONEY") (Some 5)
    None None None (Some 60) None.

(** The probability of a prize is raised to 50. *)
Definition raise_probability : ScratchCardService.PrizeData :=
  ScratchCardService.mkPrizeData None None None None None None (Some 50) None.

(** Two prizes at probabilities 30 and 20, on a card below its target. *)
Definition prize_thirty : Prize :=
  mkPrize "p30" "sc3" "Trinta" "MONEY" (Some 2) None None 30 true.
Definition prize_twenty : Prize :=
  mkPrize "p20" "sc3" "Vinte" "MONEY" (Some 5) None None 20 true.
Definition card3 : ScratchCardService.ScratchCardWithPrizes :=
  ScratchCardService.mkScratchCardWithPrizes
    (mkScratchCard "sc3" 1 true None 85 40 0 0 0) [prize_thirty; prize_twenty].

(** The current license has no credit left. *)
Definition no_credits_left : DB :=
  match LicenseService.editCredits 0 store with
  | Ok (_, d) => d
  | Throw _ => store
  end.

End Examples.

(** * Quantities the properties of the services are stated with *)

Module Quantities.

(** The sum of the probabilities of the prizes offered with a card. *)
Definition offered (prizes : list Prize) : Q :=
  fold_right Qplus 0 (map probability prizes).

(** The credits [hasEnoughCredits] asks of a license for an amount. *)
Definition creditsFor (amount : Q) (l : License) : Z :=
  if Qgtb (credits_value l) 0
  then Qceiling (amount / credits_value l)
  else 1%Z.

(** A prize row as the validation of prizes wants it: a probability
    between 0 and 100, and either a money prize with a positive value or
    a product prize with a product name and a positive redemption value. *)
Definition wellFormedPrize (p : Prize) : Prop :=
  0 <= probability p /\ probability p <= 100 /\
  ((prize_type_of p = "MONEY" /\ exists v, value p = Some v /\ 0 < v)
   \/
   (prize_type_of p = "PRODUCT" /\
    (exists n, product_name p = Some n) /\
    exists v, redemption_value p = Some v /\ 0 < v)).

End Quantities.

(** * Requests the properties of the administration are tried on *)

Module Requests.

Import ScratchCardService.

(** A stand-in for the URL test that accepts every string. *)
Definition any_url (u : string) : bool := true.




(** A request that sets the probability of a prize to 0. *)
Definition zero_probability : PrizeData :=
  mkPrizeData None None None None None None (Some 0) None.

End Requests.

(** * scratchcard.service.js: deleting and updating; user.service.js:
    the pending redemptions *)

Module CardAdministration.

Import ScratchCardService.

(** The [catch] blocks of the functions of this part. *)
Inductive Wrapped : Type :=
| ErroAoExcluirRaspadinha (cause : Error)     (* 'Erro ao excluir raspadinha: ...' *)
| ErroAoExcluirPremio (cause : Error)         (* 'Erro ao excluir prêmio: ...' *)
| ErroAoAtualizarRaspadinha (cause : Error).  (* 'Erro ao atualizar raspadinha: ...' *)

Inductive Answer (A : Type) : Type :=
| Returned (a : A)
| Thrown (e : Wrapped).

Arguments Returned {A} a.
Arguments Thrown {A} e.

(** [{ action: 'deactivated', ... }] and [{ action: 'deleted', ... }] *)
Inductive Deletion (A : Type) : Type :=
| Deactivated (row : A)
| Deleted (row : A).

Arguments Deactivated {A} row.
Arguments Deleted {A} row.

Definition deactivate_prize (p : Prize) : Prize :=
  mkPrize (prize_id p) (prize_scratchCardId p) (prize_name p) (prize_type_of p)
          (value p) (product_name p) (redemption_value p) (probability p) false.

(** [game.count({ where: { prizeId } })] *)
Definition gamesWithPrize (prizeId' : Id) (d : DB) : nat :=
  length (filter (fun g => match prizeId g with
                           | Some k => String.eqb k prizeId'
                           | None => false
                           end) (games d)).

(** [deletePrize(prizeId)] *)
Definition deletePrize (prizeId : Id) (prisma : DB) : Answer (Deletion Prize) * DB :=
  match findUnique prize_id prizeId (prizes prisma) with
  | None => (Thrown (ErroAoExcluirPremio PremioNaoEncontrado), prisma)
  | Some existingPrize =>
      if (0 <? gamesWithPrize prizeId prisma)%nat then
        (Returned (Deactivated (deactivate_prize existingPrize)),
         set_prizes (updateRows prize_id prizeId deactivate_prize) prisma)
      else
        (Returned (Deleted existingPrize),
         set_prizes (filter (fun p => negb (String.eqb (prize_id p) prizeId))) prisma)
  end.

Definition deactivate_card (c : ScratchCard) : ScratchCard :=
  mkScratchCard (card_id c) (price c) false (deleted_at c)
                (target_rtp c) (current_rtp c) (total_revenue c)
                (total_payouts c) (total_games_played c).

Definition soft_delete_card (now : Z) (c : ScratchCard) : ScratchCard :=
  mkScratchCard (card_id c) (price c) false (Some now)
                (target_rtp c) (current_rtp c) (total_revenue c)
                (total_payouts c) (total_games_played c).

(** [game.count({ where: { scratchCardId, status: 'COMPLETED' } })] *)
Definition activeGames (scratchCardId : Id) (d : DB) : nat :=
  length (filter (fun g => String.eqb (game_scratchCardId g) scratchCardId
                           && String.eqb (status g) "COMPLETED") (games d)).

(** [scratchCard.findUnique({ where: { id, deleted_at: null } })] *)
Definition findExistingScratchCard (scratchCardId : Id) (d : DB) : option ScratchCard :=
  match findUnique card_id scratchCardId (scratchCards d) with
  | Some c => match deleted_at c with
              | None => Some c
              | Some _ => None
              end
  | None => None
  end.

(** [deleteScratchCard(scratchCardId)]; [now] is the value of [new Date()]. *)
Definition deleteScratchCard (scratchCardId : Id) (now : Z) (prisma : DB)
  : Answer (Deletion ScratchCard) * DB :=
  match findExistingScratchCard scratchCardId prisma with
  | None => (Thrown (ErroAoExcluirRaspadinha RaspadinhaNaoEncontrada), prisma)
  | Some existingScratchCard =>
      if (0 <? activeGames scratchCardId prisma)%nat then
        (Returned (Deactivated (deactivate_card existingScratchCard)),
         set_scratchCards (updateRows card_id scratchCardId deactivate_card) prisma)
      else
        (Returned (Deleted (soft_delete_card now existingScratchCard)),
         set_scratchCards (updateRows card_id scratchCardId (soft_delete_card now))
                          prisma)
  end.



(** The [where] of [getPendingRedemptions(userId)]. *)
Definition pending (userId : Id) (d : DB) (g : Game) : bool :=
  String.eqb (game_userId g) userId && is_winner g
  && String.eqb (status g) "COMPLETED" && negb (redemption_choice g)
  && match UserService.prizeOf g d with
     | Some p => String.eqb (prize_type_of p) "PRODUCT"
     | None => false
     end.

(** [getPendingRedemptions(userId)]: the games of the answer, in the
    order of the store (the answer is ordered by [played_at], which is
    not a column of the rows here). *)
Definition getPendingRedemptions (userId : Id) (prisma : DB) : list Game :=
  filter (pending userId prisma) (games prisma).

End CardAdministration.

(** * Withdrawals and deposits

    [createWithdraw] of user.service.js and the approvals and rejections
    of the administration service.  The store is the store of the other
    services with the tables of withdrawals and deposits beside it.  The
    payment gateway is outside: whether it paid is an argument.  The
    columns [total_withdraw] of a user and [metadata], [paid_at] and
    [processed_at] of a withdrawal or deposit are not columns of the rows
    here; a statement that writes only such columns is kept for its
    throw. *)

Module Ledger.

Import ScratchCardService.

Record Withdraw := mkWithdraw {
  withdraw_id : Id;
  withdraw_userId : Id;
  withdraw_walletId : Id;
  withdraw_amount : Q;
  withdraw_status : bool
}.

Record Deposit := mkDeposit {
  deposit_id : Id;
  deposit_userId : Id;
  deposit_walletId : Id;
  deposit_amount : Q;
  deposit_status : bool
}.

Record Bank := mkBank {
  core : DB;
  withdraws : list Withdraw;
  deposits : list Deposit
}.

Inductive Failure : Type :=
| Core (e : Error)                   (* an error the other services throw as well *)
| SaldoInsuficienteParaSaque         (* 'Saldo insuficiente para saque' *)
| ValorMinimoParaSaque               (* 'Valor mínimo para saque é R$ 10,00' *)
| SaqueNaoEncontrado                 (* 'Saque não encontrado' *)
| ApenasSaquesPendentesAprovados     (* 'Apenas saques pendentes podem ser aprovados' *)
| ApenasSaquesPendentesRejeitados    (* 'Apenas saques pendentes podem ser rejeitados' *)
| DepositoNaoEncontrado              (* 'Depósito não encontrado' *)
| ApenasDepositosPendentesAprovados  (* 'Apenas depósitos pendentes podem ser aprovados' *)
| ApenasDepositosPendentesRejeitados (* 'Apenas depósitos pendentes podem ser rejeitados' *)
| ErroNoGateway                      (* the gateway throws or answers without success *)
| ErroAoProcessarPagamento (cause : Failure)       (* 'Erro ao processar pagamento: ...' *)
| ErroAoCriarSolicitacaoDeSaque (cause : Failure). (* 'Erro ao criar solicitação de saque: ...' *)

Inductive Outcome (A : Type) : Type :=
| Done (a : A)
| Failed (f : Failure).

Arguments Done {A} a.
Arguments Failed {A} f.

(** [prisma.$transaction] on this store. *)
Definition bankTransaction {A} (body : Bank -> Outcome (A * Bank)) (prisma : Bank)
  : Outcome A * Bank :=
  match body prisma with
  | Done (a, tx) => (Done a, tx)
  | Failed f => (Failed f, prisma)
  end.

(** A statement of the other services, run on the core of this store. *)
Definition onCore {A B} (m : M A) (tx : Bank)
    (k : A -> Bank -> Outcome (B * Bank)) : Outcome (B * Bank) :=
  match m (core tx) with
  | Ok (a, d) => k a (mkBank d (withdraws tx) (deposits tx))
  | Throw e => Failed (Core e)
  end.

(** [wallet.update({ where: { userId }, data })] *)
Definition wallet_update_of_user : Id -> (Wallet -> Wallet) -> M Wallet :=
  update wallets set_wallets wallet_userId.

Definition wrapWithdraw {A} (r : Outcome A * Bank) : Outcome A * Bank :=
  match r with
  | (Done a, b) => (Done a, b)
  | (Failed f, b) => (Failed (ErroAoCriarSolicitacaoDeSaque f), b)
  end.

(** [createWithdraw(userId, { amount, pix_key, pix_type, document })];
    [newId] is the id the store gives the withdrawal. *)
Definition createWithdraw (userId : Id) (amount : Q) (newId : Id) (prisma : Bank)
  : Outcome Withdraw * Bank :=
  wrapWithdraw
    match findUserWithWallet userId (core prisma) with
    | None => (Failed (Core UsuarioNaoEncontrado), prisma)
    | Some user =>
        match wallet user with
        | [] => (Failed (Core CarteiraNaoEncontrada), prisma)
        | wallet :: _ =>
            if Qltb (balance wallet) amount then
              (Failed SaldoInsuficienteParaSaque, prisma)
            else if Qltb amount 10 then
              (Failed ValorMinimoParaSaque, prisma)
            else
              bankTransaction (fun tx =>
                onCore (wallet_update (wallet_id wallet) (decrement_balance amount)) tx
                  (fun updatedWallet tx =>
                let withdraw := mkWithdraw newId userId (wallet_id wallet) amount false in
                let tx := mkBank (core tx) (createRow withdraw (withdraws tx))
                                 (deposits tx) in
                onCore (user_update userId (fun u => u)) tx (fun _ tx =>
                Done (withdraw, tx)))) prisma
        end
    end.

Definition rejected (w : Withdraw) : Withdraw :=
  mkWithdraw (withdraw_id w) (withdraw_userId w) (withdraw_walletId w) 0 false.


(** [rejectWithdrawal(withdrawalId, adminId, reason)] *)
Definition rejectWithdrawal (withdrawalId : Id) (prisma : Bank)
  : Outcome Withdraw * Bank :=
  bankTransaction (fun tx =>
    match findUnique withdraw_id withdrawalId (withdraws tx) with
    | None => Failed SaqueNaoEncontrado
    | Some withdrawal =>
        if withdraw_status withdrawal then Failed ApenasSaquesPendentesRejeitados
        else
          let tx := mkBank (core tx)
                           (updateRows withdraw_id withdrawalId rejected (withdraws tx))
                           (deposits tx) in
          onCore (wallet_update_of_user (withdraw_userId withdrawal)
                    (increment_balance (withdraw_amount withdrawal))) tx (fun _ tx =>
          Done (rejected withdrawal, tx))
    end) prisma.


Definition confirmed (d : Deposit) : Deposit :=
  mkDeposit (deposit_id d) (deposit_userId d) (deposit_walletId d)
            (deposit_amount d) true.

Definition unconfirmed (d : Deposit) : Deposit :=
  mkDeposit (deposit_id d) (deposit_userId d) (deposit_walletId d)
            (deposit_amount d) false.

(** [approveDeposit(depositId, adminId)] *)
Definition approveDeposit (depositId : Id) (prisma : Bank) : Outcome Deposit * Bank :=
  bankTransaction (fun tx =>
    match findUnique deposit_id depositId (deposits tx) with
    | None => Failed DepositoNaoEncontrado
    | Some deposit =>
        if deposit_status deposit then Failed ApenasDepositosPendentesAprovados
        else
          let tx := mkBank (core tx) (withdraws tx)
                           (updateRows deposit_id depositId confirmed (deposits tx)) in
          onCore (wallet_update_of_user (deposit_userId deposit)
                    (increment_balance (deposit_amount deposit))) tx (fun _ tx =>
          Done (confirmed deposit, tx))
    end) prisma.

(** [rejectDeposit(depositId, adminId, reason)]: no transaction; the
    update writes [status: false] and the metadata. *)
Definition rejectDeposit (depositId : Id) (prisma : Bank) : Outcome Deposit * Bank :=
  match findUnique deposit_id depositId (deposits prisma) with
  | None => (Failed DepositoNaoEncontrado, prisma)
  | Some deposit =>
      if deposit_status deposit then (Failed ApenasDepositosPendentesRejeitados, prisma)
      else
        (Done (unconfirmed deposit),
         mkBank (core prisma) (withdraws prisma)
                (updateRows deposit_id depositId unconfirmed (deposits prisma)))
  end.

(** A store with a pending withdrawal and a pending deposit of a player. *)
Definition pending_withdraw : Withdraw := mkWithdraw "wd1" "u1" "w1" 20 false.
Definition pending_deposit : Deposit := mkDeposit "dp1" "u1" "w1" 50 false.

(** A deposit of a user without a wallet. *)
Definition orphan_deposit : Deposit := mkDeposit "dp2" "u9" "w9" 50 false.

Definition bank : Bank :=
  mkBank Examples.store [pending_withdraw] [pending_deposit; orphan_deposit].

(** The player [alice] holds 25 before asking for a withdrawal. *)
Definition bank_with_funds : Bank :=
  mkBank (set_wallets (updateRows wallet_id "w1" (increment_balance 20)) Examples.store)
         [] [].

End Ledger.

(** * Facts about the model *)

(** ** Comparisons *)

Lemma Qltb_iff (x y : Q) : Qltb x y = true <-> x < y.
Proof.
  unfold Qltb. rewrite negb_true_iff. split; intro H.
  - apply Qnot_le_lt. intro L. apply Qle_bool_iff in L. congruence.
  - destruct (Qle_bool y x) eqn:E; [|reflexivity].
    apply Qle_bool_iff in E. exfalso. exact (Qlt_not_le _ _ H E).
Qed.

Lemma Qltb_false_iff (x y : Q) : Qltb x y = false <-> y <= x.
Proof.
  unfold Qltb. rewrite negb_false_iff. apply Qle_bool_iff.
Qed.

(** ** The order of identifiers *)

Module IdOrder.

Lemma ascii_compare_refl (a : ascii) : Ascii.compare a a = Eq.
Proof. unfold Ascii.compare. apply N.compare_refl. Qed.

Lemma ascii_compare_lt_trans (a b c : ascii) :
  Ascii.compare a b = Lt -> Ascii.compare b c = Lt -> Ascii.compare a c = Lt.
Proof.
  unfold Ascii.compare. rewrite !N.compare_lt_iff. apply N.lt_trans.
Qed.

Lemma compare_refl (s : string) : String.compare s s = Eq.
Proof.
  induction s as [|a s IH]; simpl; [reflexivity|].
  now rewrite ascii_compare_refl.
Qed.

Lemma compare_lt_trans (s1 : string) :
  forall s2 s3, String.compare s1 s2 = Lt -> String.compare s2 s3 = Lt ->
                String.compare s1 s3 = Lt.
Proof.
  induction s1 as [|a s1 IH]; intros [|b s2] [|c s3]; simpl;
    try discriminate; try reflexivity.
  destruct (Ascii.compare a b) eqn:Eab; try discriminate;
    destruct (Ascii.compare b c) eqn:Ebc; try discriminate; intros H1 H2.
  - apply Ascii.compare_eq_iff in Eab, Ebc. subst.
    rewrite ascii_compare_refl. eauto.
  - apply Ascii.compare_eq_iff in Eab. subst. now rewrite Ebc.
  - apply Ascii.compare_eq_iff in Ebc. subst. now rewrite Eab.
  - now rewrite (ascii_compare_lt_trans _ _ _ Eab Ebc).
Qed.

Lemma leb_refl (s : string) : String.leb s s = true.
Proof. unfold String.leb. now rewrite compare_refl. Qed.

Lemma ltb_leb (s1 s2 : string) : String.ltb s1 s2 = true -> String.leb s1 s2 = true.
Proof.
  unfold String.ltb, String.leb. destruct (String.compare s1 s2); congruence.
Qed.

Lemma ltb_false_leb (s1 s2 : string) :
  String.ltb s1 s2 = false -> String.leb s2 s1 = true.
Proof.
  unfold String.ltb, String.leb. rewrite (String.compare_antisym s2 s1).
  destruct (String.compare s1 s2); simpl; congruence.
Qed.

Lemma leb_trans (s1 s2 s3 : string) :
  String.leb s1 s2 = true -> String.leb s2 s3 = true -> String.leb s1 s3 = true.
Proof.
  unfold String.leb.
  destruct (String.compare s1 s2) eqn:E12; try discriminate;
    destruct (String.compare s2 s3) eqn:E23; try discriminate; intros _ _.
  - apply String.compare_eq_iff in E12, E23. subst. now rewrite compare_refl.
  - apply String.compare_eq_iff in E12. subst. now rewrite E23.
  - apply String.compare_eq_iff in E23. subst. now rewrite E12.
  - now rewrite (compare_lt_trans _ _ _ E12 E23).
Qed.

End IdOrder.

(** ** Tables *)

Section TableFacts.

Context {A : Type} (key : A -> Id).

Lemma findUnique_updateRows k f t :
  (forall a, key (f a) = key a) ->
  findUnique key k (updateRows key k f t) = option_map f (findUnique key k t).
Proof.
  intro Hk. unfold findUnique, updateRows.
  induction t as [|a t IH]; simpl; [reflexivity|].
  destruct (String.eqb (key a) k) eqn:E.
  - rewrite Hk, E. reflexivity.
  - rewrite E. exact IH.
Qed.

Lemma findUnique_updateRows_other k k' f t :
  (forall a, key (f a) = key a) -> k' <> k ->
  findUnique key k' (updateRows key k f t) = findUnique key k' t.
Proof.
  intros Hk Hne. unfold findUnique, updateRows.
  induction t as [|a t IH]; simpl; [reflexivity|].
  destruct (String.eqb (key a) k) eqn:E.
  - rewrite Hk. apply String.eqb_eq in E.
    assert (String.eqb (key a) k' = false) as ->
      by (apply String.eqb_neq; congruence).
    exact IH.
  - destruct (String.eqb (key a) k'); [reflexivity|exact IH].
Qed.

End TableFacts.

(** ** The current license *)

Module LicenseFacts.

Import LicenseService.

Lemma findFirstByIdDesc_None (t : list License) :
  findFirstByIdDesc t = None <-> t = [].
Proof.
  destruct t as [|x r]; simpl; [tauto|].
  split; [|discriminate].
  destruct (findFirstByIdDesc r) as [y|]; [|discriminate].
  destruct (String.ltb (license_id x) (license_id y)); discriminate.
Qed.

Lemma findFirstByIdDesc_In (t : list License) (l : License) :
  findFirstByIdDesc t = Some l -> In l t.
Proof.
  revert l. induction t as [|x r IH]; simpl; intros l H; [discriminate|].
  destruct (findFirstByIdDesc r) as [y|].
  - destruct (String.ltb (license_id x) (license_id y));
      injection H as <-; auto.
  - injection H as <-. now left.
Qed.

Lemma findFirstByIdDesc_greatest (t : list License) (l : License) :
  findFirstByIdDesc t = Some l ->
  forall l', In l' t -> String.leb (license_id l') (license_id l) = true.
Proof.
  revert l. induction t as [|x r IH]; simpl; intros l H l' Hin; [contradiction|].
  destruct (findFirstByIdDesc r) as [y|] eqn:Er.
  - destruct (String.ltb (license_id x) (license_id y)) eqn:Elt;
      injection H as <-; destruct Hin as [<-|Hin].
    + now apply IdOrder.ltb_leb.
    + now apply (IH y).
    + apply IdOrder.leb_refl.
    + apply IdOrder.leb_trans with (license_id y).
      * now apply (IH y).
      * now apply IdOrder.ltb_false_leb.
  - apply findFirstByIdDesc_None in Er. subst r.
    injection H as <-. destruct Hin as [<-|[]]. apply IdOrder.leb_refl.
Qed.

Lemma ltb_irrefl_id (x y : License) :
  String.ltb (license_id x) (license_id y) = true ->
  String.eqb (license_id x) (license_id y) = false.
Proof.
  intro H. apply String.eqb_neq. intro E. rewrite E in H.
  unfold String.ltb in H. now rewrite IdOrder.compare_refl in H.
Qed.

(** The row [orderBy: { id: 'desc' }] puts first is the row that
    [where: { id }] finds under its id. *)
Lemma findFirstByIdDesc_findUnique (t : list License) (l : License) :
  findFirstByIdDesc t = Some l -> findUnique license_id (license_id l) t = Some l.
Proof.
  revert l. unfold findUnique.
  induction t as [|x r IH]; simpl; intros l H; [discriminate|].
  destruct (findFirstByIdDesc r) as [y|] eqn:Er.
  - destruct (String.ltb (license_id x) (license_id y)) eqn:Elt;
      injection H as <-.
    + rewrite (ltb_irrefl_id _ _ Elt). now apply IH.
    + now rewrite String.eqb_refl.
  - injection H as <-. now rewrite String.eqb_refl.
Qed.

Lemma getCurrentLicense_Ok (prisma : DB) (l : License) :
  getCurrentLicense prisma = Ok l <-> findFirstByIdDesc (licenses prisma) = Some l.
Proof.
  unfold getCurrentLicense.
  destruct (findFirstByIdDesc (licenses prisma)); split; congruence.
Qed.

Lemma getCurrentLicense_empty (prisma : DB) :
  licenses prisma = [] -> getCurrentLicense prisma = Throw NenhumaLicencaEncontrada.
Proof. unfold getCurrentLicense. now intros ->. Qed.

(** An update of the current license reaches the row it read and no row
    with another id. *)
Lemma license_update_current (prisma : DB) (l : License) (f : License -> License) :
  getCurrentLicense prisma = Ok l ->
  (forall x, license_id (f x) = license_id x) ->
  exists prisma',
    license_update (license_id l) f prisma = Ok (f l, prisma') /\
    findUnique license_id (license_id l) (licenses prisma') = Some (f l) /\
    (forall k, k <> license_id l ->
       findUnique license_id k (licenses prisma')
       = findUnique license_id k (licenses prisma)).
Proof.
  intros H Hid. apply getCurrentLicense_Ok, findFirstByIdDesc_findUnique in H.
  unfold license_update, update. rewrite H.
  eexists. split; [reflexivity|]. destruct prisma; simpl in *. split.
  - rewrite findUnique_updateRows by exact Hid. now rewrite H.
  - intros k Hk. now apply findUnique_updateRows_other.
Qed.

End LicenseFacts.

(** ** The license meter *)

Module LicenseMeter.

Import LicenseService LicenseFacts.



(** C10: the operations of the license meter work on the current
    license, the row with the greatest id: the status check and the
    credit check report it, the edits of credits, earnings and parameters
    and the consumption write the row with its id and no other license
    row; with no license row at all each of them fails. *)
Theorem license_operations_use_current_license (prisma : DB) :
  (forall l, getCurrentLicense prisma = Ok l ->
     In l (licenses prisma) /\
     (forall l', In l' (licenses prisma) ->
        String.leb (license_id l') (license_id l) = true)) /\
  (licenses prisma = [] ->
     getCurrentLicense prisma = Throw NenhumaLicencaEncontrada /\
     checkLicenseStatus prisma = StatusFail NenhumaLicencaEncontrada /\
     (forall amount, hasEnoughCredits amount prisma = Throw NenhumaLicencaEncontrada) /\
     (forall amount userId scratchCardId newId tx,
        consumeCreditsAndAddEarnings amount userId scratchCardId newId prisma tx
        = Throw NenhumaLicencaEncontrada) /\
     (forall newCredits, editCredits newCredits prisma = Throw NenhumaLicencaEncontrada) /\
     (forall amount, addEarnings amount prisma = Throw NenhumaLicencaEncontrada) /\
     (forall params, updateLicenseParams params prisma = Throw NenhumaLicencaEncontrada)) /\
  (licenses prisma <> [] -> exists l, getCurrentLicense prisma = Ok l) /\
  (forall l, getCurrentLicense prisma = Ok l ->
     checkLicenseStatus prisma
     = StatusOk (is_active l) (0 <? credits l)%Z (credits l) (credits_used l)
                (credits_value l) (ggr_percentage l) (total_earnings l) l /\
     (forall amount, exists answer,
        hasEnoughCredits amount prisma = Ok answer /\ license answer = l) /\
     (forall newCredits, exists prisma',
        editCredits newCredits prisma = Ok (with_credits newCredits l, prisma') /\
        findUnique license_id (license_id l) (licenses prisma')
        = Some (with_credits newCredits l) /\
        (forall k, k <> license_id l ->
           findUnique license_id k (licenses prisma')
           = findUnique license_id k (licenses prisma))) /\
     (forall amount, exists prisma',
        addEarnings amount prisma = Ok (add_total_earnings amount l, prisma') /\
        findUnique license_id (license_id l) (licenses prisma')
        = Some (add_total_earnings amount l) /\
        (forall k, k <> license_id l ->
           findUnique license_id k (licenses prisma')
           = findUnique license_id k (licenses prisma))) /\
     (forall params, exists prisma',
        updateLicenseParams params prisma = Ok (updateData params l, prisma') /\
        findUnique license_id (license_id l) (licenses prisma')
        = Some (updateData params l) /\
        (forall k, k <> license_id l ->
           findUnique license_id k (licenses prisma')
           = findUnique license_id k (licenses prisma))) /\
     (forall amount userId scratchCardId newId tx answer tx',
        consumeCreditsAndAddEarnings amount userId scratchCardId newId prisma tx
        = Ok (answer, tx') ->
        (forall creditsConsumed ggrAmount l',
           answer = ConsumeOk creditsConsumed ggrAmount l' -> l' = l) /\
        (forall k, k <> license_id l ->
           findUnique license_id k (licenses tx')
           = findUnique license_id k (licenses tx)))).
Proof.
  split; [|split; [|split]].
  - intros l H. apply getCurrentLicense_Ok in H. split.
    + now apply findFirstByIdDesc_In.
    + now apply findFirstByIdDesc_greatest.
  - intro H. apply getCurrentLicense_empty in H.
    unfold checkLicenseStatus, hasEnoughCredits, consumeCreditsAndAddEarnings,
      editCredits, addEarnings, updateLicenseParams, hasEnoughCredits.
    rewrite H. repeat split.
  - intro H. unfold getCurrentLicense.
    destruct (findFirstByIdDesc (licenses prisma)) as [l|] eqn:E; [now exists l|].
    now apply findFirstByIdDesc_None in E.
  - intros l H. split; [|split; [|split; [|split; [|split]]]].
    + unfold checkLicenseStatus. now rewrite H.
    + intro amount. unfold hasEnoughCredits. rewrite H.
      destruct (negb (is_active l)); [eexists; split; reflexivity|].
      match goal with |- context [(?a <? ?b)%Z] => destruct (a <? b)%Z end;
        eexists; split; reflexivity.
    + intro c. unfold editCredits. rewrite H.
      apply license_update_current; [exact H|reflexivity].
    + intro a. unfold addEarnings. rewrite H.
      apply license_update_current; [exact H|reflexivity].
    + intro p. unfold updateLicenseParams. rewrite H.
      apply license_update_current; [exact H|reflexivity].
    + intros amount userId scratchCardId newId tx answer tx'.
      unfold consumeCreditsAndAddEarnings, hasEnoughCredits. rewrite H.
      destruct (negb (is_active l)).
      { intro E. injection E as <- <-. split; [discriminate|reflexivity]. }
      match goal with |- context [(?a <? ?b)%Z] => destruct (a <? b)%Z end.
      { intro E. injection E as <- <-. split; [discriminate|reflexivity]. }
      unfold bind, license_update, update, create, ret.
      destruct (findUnique license_id (license_id l) (licenses tx)).
      * intro E. injection E as <- <-. split.
        -- intros ? ? ? E. now injection E.
        -- intros k Hk. destruct tx; simpl.
           unfold createRow. simpl.
           now apply findUnique_updateRows_other.
      * intro E. injection E as <- <-. split; [discriminate|reflexivity].
Qed.

Lemma license_operations_use_current_license_witness :
  getCurrentLicense Examples.store = Ok Examples.license_new /\
  String.leb (license_id Examples.license_old) (license_id Examples.license_new)
  = true /\
  checkLicenseStatus Examples.no_license = StatusFail NenhumaLicencaEncontrada /\
  exists prisma',
    editCredits 9 Examples.store
    = Ok (with_credits 9 Examples.license_new, prisma') /\
    findUnique license_id "lic2" (licenses prisma')
    = Some (with_credits 9 Examples.license_new) /\
    findUnique license_id "lic1" (licenses prisma') = Some Examples.license_old.
Proof.
  destruct (license_operations_use_current_license Examples.store)
    as (Hmax & _ & _ & Hops).
  destruct (license_operations_use_current_license Examples.no_license)
    as (_ & Hnone & _).
  split; [reflexivity|].
  split; [apply (Hmax Examples.license_new eq_refl); left; reflexivity|].
  split; [apply (Hnone eq_refl)|].
  destruct (Hops Examples.license_new eq_refl) as (_ & _ & Hedit & _).
  destruct (Hedit 9%Z) as (prisma' & H1 & H2 & H3).
  exists prisma'. split; [exact H1|]. split; [exact H2|].
  rewrite H3 by discriminate. reflexivity.
Defined.

(** What a granted consumption writes: on the row of the store written
    to that carries the id of the license checked, [credits] goes down and
    [credits_used] up by the credits needed, [total_earnings] goes up by
    [amount * (ggr_percentage / 100)], and one usage row is appended. *)
Lemma consumption_granted amount userId scratchCardId newId prisma tx
      needed available l stored :
  hasEnoughCredits amount prisma = Ok (CreditosSuficientes needed available l) ->
  findUnique license_id (license_id l) (licenses tx) = Some stored ->
  exists tx' updated,
    consumeCreditsAndAddEarnings amount userId scratchCardId newId prisma tx
    = Ok (ConsumeOk needed (amount * (ggr_percentage l / 100)) l, tx') /\
    findUnique license_id (license_id l) (licenses tx') = Some updated /\
    credits updated = (credits stored - needed)%Z /\
    credits_used updated = (credits_used stored + needed)%Z /\
    total_earnings updated
    = total_earnings stored + amount * (ggr_percentage l / 100) /\
    usageLicenses tx'
    = (usageLicenses tx
         ++ [mkUsageLicense newId userId (license_id l) scratchCardId needed])%list.
Proof.
  intros Hcheck Hstored. unfold consumeCreditsAndAddEarnings. rewrite Hcheck.
  unfold bind, license_update, update, create, ret. rewrite Hstored.
  do 2 eexists. split; [reflexivity|].
  destruct tx; cbn [licenses usageLicenses set_licenses set_usageLicenses] in *.
  rewrite findUnique_updateRows by reflexivity. rewrite Hstored.
  cbn. repeat split; reflexivity.
Qed.

(** C2, evaluated: [consumeCreditsAndAddEarnings] is called twice with the
    handle of one transaction, on a license with the two credits one
    call needs.  The first call is granted and leaves no credit in the
    transaction.  [hasEnoughCredits] on the store of the transaction
    refuses a second consumption; the second call checks the store of
    the global client instead, is granted as well, and leaves the credits
    of the transaction at [-2]. *)
Theorem consumption_checks_outside_the_transaction :
  let prisma := Examples.two_credits_left in
  exists answer1 tx1 refusal answer2 tx2,
    consumeCreditsAndAddEarnings 1 "u1" "sc1" "ul1" prisma prisma
    = Ok (answer1, tx1) /\
    consume_success answer1 = true /\
    option_map credits (findUnique license_id "lic2" (licenses tx1)) = Some 0%Z /\
    hasEnoughCredits 1 tx1 = Ok refusal /\
    success refusal = false /\
    consumeCreditsAndAddEarnings 1 "u2" "sc1" "ul2" prisma tx1
    = Ok (answer2, tx2) /\
    consume_success answer2 = true /\
    option_map credits (findUnique license_id "lic2" (licenses tx2)) = Some (-2)%Z /\
    length (usageLicenses tx2) = 2%nat.
Proof.
  cbv zeta. do 5 eexists.
  split; [vm_compute; reflexivity|].
  split; [reflexivity|].
  split; [reflexivity|].
  split; [vm_compute; reflexivity|].
  split; [reflexivity|].
  split; [vm_compute; reflexivity|].
  repeat split.
Qed.

End LicenseMeter.

(** ** The outcome resolver *)

Module OutcomeResolver.

Import ScratchCardService Specification.




End OutcomeResolver.

(** ** Statements and transactions *)

Lemma bind_Ok {A B} (m : M A) (k : A -> M B) (d d' : DB) (b : B) :
  bind m k d = Ok (b, d') ->
  exists a d1, m d = Ok (a, d1) /\ k a d1 = Ok (b, d').
Proof.
  unfold bind. destruct (m d) as [[a d1]|e]; [|discriminate].
  intro H. now exists a, d1.
Qed.

Lemma update_Ok {A} (table : DB -> list A) set (key : A -> Id) k f d a d' :
  update table set key k f d = Ok (a, d') ->
  exists a0, findUnique key k (table d) = Some a0 /\
             a = f a0 /\ d' = set (updateRows key k f) d.
Proof.
  unfold update. destruct (findUnique key k (table d)) as [a0|]; [|discriminate].
  intro H. injection H as <- <-. now exists a0.
Qed.

Lemma transaction_Ok {A} (body : DB -> M A) (prisma prisma' : DB) (a : A) :
  transaction body prisma = (Ok a, prisma') <-> body prisma prisma = Ok (a, prisma').
Proof.
  unfold transaction. destruct (body prisma prisma) as [[x d]|e]; split; congruence.
Qed.

Tactic Notation "step" hyp(H) "as" ident(a) ident(d) ident(H1) :=
  apply bind_Ok in H; destruct H as (a & d & H1 & H).

(** ** The play transaction *)

Module PlayFacts.

Import LicenseService ScratchCardService.

(** The consumption writes licenses and usage rows only. *)
Lemma consume_frame amount userId scratchCardId newId prisma tx answer tx' :
  consumeCreditsAndAddEarnings amount userId scratchCardId newId prisma tx
  = Ok (answer, tx') ->
  users tx' = users tx /\ wallets tx' = wallets tx /\
  scratchCards tx' = scratchCards tx /\ prizes tx' = prizes tx /\
  games tx' = games tx.
Proof.
  unfold consumeCreditsAndAddEarnings.
  destruct (hasEnoughCredits amount prisma) as [[l|n a l|n a l]|e];
    try discriminate; try (intro H; injection H as <- <-; tauto).
  unfold bind, license_update, update, create, ret.
  destruct (findUnique license_id (license_id l) (licenses tx));
    intro H; injection H as <- <-; destruct tx; simpl; tauto.
Qed.

(** A refused consumption writes nothing. *)
Lemma consume_refused amount userId scratchCardId newId prisma tx answer :
  hasEnoughCredits amount prisma = Ok answer -> success answer = false ->
  consumeCreditsAndAddEarnings amount userId scratchCardId newId prisma tx
  = Ok (ConsumeRefused (message answer) answer, tx).
Proof.
  unfold consumeCreditsAndAddEarnings. intros -> H.
  destruct answer; try reflexivity; discriminate.
Qed.

(** What a committed play has written, table by table. *)
Lemma playTransaction_Ok userId scratchCardId gameId usageId p prisma tx game tx' :
  playTransaction userId scratchCardId gameId usageId p prisma tx = Ok (game, tx') ->
  let cost := price (card (play_card p)) in
  let wid := wallet_id (play_wallet p) in
  game = mkGame gameId userId scratchCardId (play_prizeId p)
                (isWinner (gameResult p)) (amountWon p) (prizeType p)
                false "COMPLETED" /\
  wallets tx'
  = (let debited := updateRows wallet_id wid (decrement_balance cost) (wallets tx) in
     if wonMoney (gameResult p)
     then updateRows wallet_id wid (increment_balance (amountWon p)) debited
     else debited) /\
  games tx' = createRow game (games tx) /\
  users tx' = updateRows user_id userId (count_play (isWinner (gameResult p))) (users tx) /\
  (exists c0, findUnique card_id scratchCardId (scratchCards tx) = Some c0 /\
     scratchCards tx'
     = (let counted := updateRows card_id scratchCardId
                                  (add_play_stats cost (amountWon p)) (scratchCards tx) in
        if negb (is_influencer (user (play_user p)))
        then updateRows card_id scratchCardId
               (with_current_rtp (currentRtp (add_play_stats cost (amountWon p) c0)))
               counted
        else counted)) /\
  prizes tx' = prizes tx /\
  exists answer before,
    consumeCreditsAndAddEarnings cost userId scratchCardId usageId prisma before
    = Ok (answer, tx').
Proof.
  unfold playTransaction. intro H.
  step H as a1 d1 S1. apply update_Ok in S1 as (w0 & Hw0 & -> & ->).
  step H as a2 d2 S2.
  assert (Hd2 : wallets d2
                = (let debited := updateRows wallet_id (wallet_id (play_wallet p))
                                    (decrement_balance (price (card (play_card p))))
                                    (wallets tx) in
                   if wonMoney (gameResult p)
                   then updateRows wallet_id (wallet_id (play_wallet p))
                          (increment_balance (amountWon p)) debited
                   else debited)
                /\ users d2 = users tx /\ games d2 = games tx
                /\ scratchCards d2 = scratchCards tx /\ prizes d2 = prizes tx).
  { destruct (wonMoney (gameResult p)).
    - step S2 as a3 d3 S3. apply update_Ok in S3 as (w1 & Hw1 & -> & ->).
      injection S2 as _ <-. destruct tx; simpl. tauto.
    - injection S2 as _ <-. destruct tx; simpl. tauto. }
  clear S2. destruct Hd2 as (Hw & Hu & Hg & Hc & Hp).
  step H as a3 d3 S3. injection S3 as <- <-.
  step H as a4 d4 S4. apply update_Ok in S4 as (u0 & Hu0 & -> & ->).
  step H as a5 d5 S5. apply update_Ok in S5 as (c0 & Hc0 & -> & ->).
  step H as a6 d6 S6.
  assert (Hd6 : scratchCards d6
            = (let counted := updateRows card_id scratchCardId
                                (add_play_stats (price (card (play_card p))) (amountWon p))
                                (scratchCards tx) in
               if negb (is_influencer (user (play_user p)))
               then updateRows card_id scratchCardId
                      (with_current_rtp
                         (currentRtp (add_play_stats (price (card (play_card p)))
                                                     (amountWon p) c0)))
                      counted
               else counted)
            /\ wallets d6 = wallets d2
            /\ users d6 = updateRows user_id userId
                 (count_play (isWinner (gameResult p))) (users tx)
            /\ games d6 = createRow (mkGame gameId userId scratchCardId (play_prizeId p)
                (isWinner (gameResult p)) (amountWon p) (prizeType p)
                false "COMPLETED") (games tx) /\ prizes d6 = prizes tx).
  { simpl in Hc0. rewrite Hc in Hc0.
    destruct (negb (is_influencer (user (play_user p)))).
    - step S6 as a7 d7 S7. injection S7 as <- <-. simpl in S6.
      rewrite Hc in S6.
      rewrite findUnique_updateRows in S6 by reflexivity.
      rewrite Hc0 in S6. simpl in S6.
      step S6 as a8 d8 S8. apply update_Ok in S8 as (c1 & Hc1 & -> & ->).
      injection S6 as _ <-. destruct d2; simpl in *. subst.
      repeat split; reflexivity.
    - injection S6 as _ <-. destruct d2; simpl in *. subst.
      repeat split; reflexivity. }
  clear S6. destruct Hd6 as (Hsc & Hw6 & Hu6 & Hg6 & Hp6).
  simpl in Hc0. rewrite Hc in Hc0.
  step H as a7 d7 S7. injection H as <- <-.
  pose proof (consume_frame _ _ _ _ _ _ _ _ S7) as (Fu & Fw & Fc & Fp & Fg).
  split; [reflexivity|].
  rewrite Fw, Fg, Fu, Fc, Fp, Hw6, Hw, Hg6, Hu6, Hsc, Hp6.
  repeat split.
  - exists c0. split; [exact Hc0|reflexivity].
  - eauto.
Qed.

End PlayFacts.

(** ** Playing a card *)

Module Play.

Import LicenseService ScratchCardService PlayFacts.

(** What the checks before the transaction have established. *)
Lemma prepare_Ok userId scratchCardId r prisma p :
  prepare userId scratchCardId r prisma = Ok p ->
  exists ws answer,
    findUserWithWallet userId prisma = Some (play_user p) /\
    wallet (play_user p) = play_wallet p :: ws /\
    findActiveScratchCard scratchCardId prisma = Some (play_card p) /\
    hasEnoughCredits (price (card (play_card p))) prisma = Ok answer /\
    success answer = true /\
    price (card (play_card p)) <= balance (play_wallet p) /\
    gameResult p
    = determineGameResult (play_card p) (Some (user (play_user p))) r /\
    (wonMoney (gameResult p) = false -> amountWon p = 0).
Proof.
  unfold prepare.
  destruct (findUserWithWallet userId prisma) as [uw|] eqn:Eu; [|discriminate].
  destruct (wallet uw) as [|w ws] eqn:Ew; [discriminate|].
  destruct (findActiveScratchCard scratchCardId prisma) as [sc|] eqn:Ec;
    [|discriminate].
  destruct (hasEnoughCredits (price (card sc)) prisma) as [answer|e] eqn:Eh;
    [|discriminate].
  destruct (success answer) eqn:Es; [|discriminate]. simpl.
  destruct (Qltb (balance w) (price (card sc))) eqn:Eb; [discriminate|].
  apply Qltb_false_iff in Eb.
  intro H. injection H as <-. simpl.
  exists ws, answer. repeat split; auto.
  unfold wonMoney.
  destruct (prize (determineGameResult sc (Some (user uw)) r)) as [pz|]; [|reflexivity].
  destruct (isWinner (determineGameResult sc (Some (user uw)) r)); [|reflexivity].
  simpl. now intros ->.
Qed.

Lemma playScratchCard_Ok userId scratchCardId r gameId usageId concurrent prisma
      game prisma' :
  playScratchCard userId scratchCardId r gameId usageId concurrent prisma
  = (Ok game, prisma') ->
  exists p,
    prepare userId scratchCardId r prisma = Ok p /\
    playTransaction userId scratchCardId gameId usageId p
                    (concurrent prisma) (concurrent prisma) = Ok (game, prisma').
Proof.
  unfold playScratchCard.
  destruct (prepare userId scratchCardId r prisma) as [p|e]; [|discriminate].
  destruct (transaction _ (concurrent prisma)) as [result d] eqn:T.
  intro H. injection H as Hr <-.
  destruct result as [g|e]; [|discriminate]. injection Hr as ->.
  apply transaction_Ok in T. now exists p.
Qed.

Lemma findUserWithWallet_user userId prisma uw :
  findUserWithWallet userId prisma = Some uw ->
  findUnique user_id userId (users prisma) = Some (user uw).
Proof.
  unfold findUserWithWallet.
  destruct (findUnique user_id userId (users prisma)); [|discriminate].
  now intro H; injection H as <-.
Qed.

Lemma findActiveScratchCard_card scratchCardId prisma sc :
  findActiveScratchCard scratchCardId prisma = Some sc ->
  findUnique card_id scratchCardId (scratchCards prisma) = Some (card sc).
Proof.
  unfold findActiveScratchCard.
  destruct (findUnique card_id scratchCardId (scratchCards prisma)) as [c|];
    [|discriminate].
  destruct (card_is_active c); [|discriminate].
  destruct (deleted_at c); [discriminate|].
  now intro H; injection H as <-.
Qed.






(** C1, evaluated: the license is switched off after the checks of a play
    and before its transaction opens.  The consumption step of that play
    is refused, whatever the transaction has written; the play commits all
    the same: it answers with the game, and the store it leaves holds the
    debit and the prize credit, the game row and the card statistics,
    with no credit consumed and no usage row. *)
Theorem play_commits_when_consumption_is_refused :
  let prisma := Examples.store in
  let opened := Examples.switch_license_off prisma in
  let played :=
    playScratchCard "u1" "sc1" 50 "g1" "ul1" Examples.switch_license_off prisma in
  (exists answer,
     hasEnoughCredits 1 prisma = Ok answer /\ success answer = true) /\
  (forall tx, exists answer,
     consumeCreditsAndAddEarnings 1 "u1" "sc1" "ul1" opened tx
     = Ok (ConsumeRefused (Some "Licença inativa") answer, tx)) /\
  fst played = Ok (Examples.won_game "u1") /\
  games (snd played) = [Examples.won_game "u1"] /\
  option_map balance (findUnique wallet_id "w1" (wallets (snd played))) = Some 14 /\
  option_map total_revenue (findUnique card_id "sc1" (scratchCards (snd played)))
  = Some 1 /\
  option_map total_payouts (findUnique card_id "sc1" (scratchCards (snd played)))
  = Some 10 /\
  licenses (snd played) = licenses opened /\
  usageLicenses (snd played) = [].
Proof.
  cbv zeta. split; [|split].
  - eexists. split; vm_compute; reflexivity.
  - intro tx. eexists.
    apply (consume_refused 1 "u1" "sc1" "ul1" _ tx
             (LicencaInativa (updateData (mkLicenseParams None None None (Some false))
                                         Examples.license_new)));
      reflexivity.
  - repeat split; vm_compute; reflexivity.
Qed.

End Play.

(** ** The redemption choice *)

Module RedemptionFacts.

Import ScratchCardService UserService.

Section FindAfterUpdate.

Context {A : Type} (key : A -> Id) (pred : A -> bool) (k : Id) (f : A -> A).
Hypothesis pred_key : forall a, pred a = true -> key a = k.

Lemma find_updateRows_kept (t : list A) :
  (forall a, pred (f a) = pred a) ->
  find pred (updateRows key k f t) = option_map f (find pred t).
Proof.
  intro Hf. unfold updateRows. induction t as [|a t IH]; simpl; [reflexivity|].
  destruct (String.eqb (key a) k) eqn:E.
  - rewrite Hf. destruct (pred a); [reflexivity|exact IH].
  - destruct (pred a) eqn:P; [|exact IH].
    apply pred_key in P. apply String.eqb_neq in E. contradiction.
Qed.

Lemma find_updateRows_gone (t : list A) :
  (forall a, pred (f a) = false) ->
  find pred (updateRows key k f t) = None.
Proof.
  intro Hf. unfold updateRows. induction t as [|a t IH]; simpl; [reflexivity|].
  destruct (String.eqb (key a) k) eqn:E.
  - rewrite Hf. exact IH.
  - destruct (pred a) eqn:P; [|exact IH].
    apply pred_key in P. apply String.eqb_neq in E. contradiction.
Qed.

End FindAfterUpdate.

Lemma eligible_key gameId userId g :
  eligible gameId userId g = true -> game_id g = gameId.
Proof.
  unfold eligible. rewrite !andb_true_iff. intros [[[H _] _] _].
  now apply String.eqb_eq.
Qed.

(** What a successful choice was made on, and what it has written. *)
Lemma redemptionTransaction_Ok userId gameId choice tx answer tx' :
  redemptionTransaction userId gameId choice tx = Ok (answer, tx') ->
  exists game prize,
    findEligibleGame gameId userId tx = Some game /\
    prizeOf game tx = Some prize /\
    prize_type_of prize = "PRODUCT" /\
    redemption_choice game = false /\
    prizes tx' = prizes tx /\
    ((choice = "money" /\
      games tx' = updateRows game_id gameId
                    (chose_money (Number (redemption_value prize))) (games tx))
     \/
     (choice = "product" /\
      games tx' = updateRows game_id gameId chose_product (games tx) /\
      wallets tx' = wallets tx /\ scratchCards tx' = scratchCards tx)).
Proof.
  unfold redemptionTransaction. intro H.
  step H as g0 d0 S0. injection S0 as <- <-.
  destruct (findEligibleGame gameId userId tx) as [game|] eqn:Eg; [|discriminate].
  step H as p0 d1 S1. injection S1 as <- <-.
  destruct (prizeOf game tx) as [prize|] eqn:Ep; [|discriminate].
  destruct (String.eqb (prize_type_of prize) "PRODUCT") eqn:Et; [|discriminate].
  apply String.eqb_eq in Et. cbn [negb] in H.
  destruct (redemption_choice game) eqn:Er; [discriminate|].
  step H as ws0 d2 S2. injection S2 as <- <-.
  destruct (walletsOf game tx) as [|w ws]; [discriminate|].
  exists game, prize. repeat (split; [assumption || reflexivity|]).
  destruct (String.eqb choice "money") eqn:Em.
  - apply String.eqb_eq in Em. subst choice. cbn in H.
    destruct (Qle_bool (Number (redemption_value prize)) 0); [discriminate|].
    step H as w1 d3 S3. apply update_Ok in S3 as (w0 & _ & -> & ->).
    step H as g1 d4 S4. apply update_Ok in S4 as (g2 & _ & -> & ->).
    step H as c1 d5 S5. apply update_Ok in S5 as (c0 & _ & -> & ->).
    injection H as <- <-. destruct tx; simpl. split; [reflexivity|]. left. tauto.
  - destruct (String.eqb choice "product") eqn:Ec; [|discriminate].
    apply String.eqb_eq in Ec. subst choice. cbn in H.
    step H as g1 d3 S3. apply update_Ok in S3 as (g2 & _ & -> & ->).
    injection H as <- <-. destruct tx; simpl. split; [reflexivity|]. right. tauto.
Qed.

End RedemptionFacts.

Module Redemption.

Import ScratchCardService UserService RedemptionFacts.

(** C7, as the code has it: on a completed winning game of the player
    whose prize is a product and whose choice is still open, choosing
    money succeeds when the redemption value of the prize is positive; it
    then credits the player's wallet by the redemption value, sets
    [redemption_choice], stores the redemption value as [amount_won] and
    ["REDEMPTION"] as [prize_type] on the game, and adds the redemption
    value to the [total_payouts] of the card.  When the redemption value
    is missing or not positive the choice throws and writes nothing.  The
    rows are the ones stored under their ids. *)
Theorem choose_money_redeems userId gameId prisma game prize w ws c :
  findEligibleGame gameId userId prisma = Some game ->
  prizeOf game prisma = Some prize ->
  prize_type_of prize = "PRODUCT" ->
  redemption_choice game = false ->
  walletsOf game prisma = w :: ws ->
  findUnique wallet_id (wallet_id w) (wallets prisma) = Some w ->
  findUnique game_id gameId (games prisma) = Some game ->
  findUnique card_id (game_scratchCardId game) (scratchCards prisma) = Some c ->
  (forall rv,
     redemption_value prize = Some rv -> 0 < rv ->
     exists updatedGame prisma' w' c',
       chooseRedemption userId gameId "money" prisma
       = (Ok (mkRedemption updatedGame "money"), prisma') /\
       findUnique wallet_id (wallet_id w) (wallets prisma') = Some w' /\
       balance w' = balance w + rv /\
       findUnique game_id gameId (games prisma') = Some updatedGame /\
       redemption_choice updatedGame = true /\
       amount_won updatedGame = rv /\
       prize_type updatedGame = Some "REDEMPTION" /\
       status updatedGame = status game /\
       findUnique card_id (game_scratchCardId game) (scratchCards prisma') = Some c' /\
       total_payouts c' = total_payouts c + rv) /\
  (Number (redemption_value prize) <= 0 ->
   chooseRedemption userId gameId "money" prisma
   = (Throw (ErroAoProcessarEscolha ValorDeResgateIndisponivel), prisma)).
Proof.
  intros Hg Hp Ht Hr Hws Hw Hgame Hc.
  unfold chooseRedemption, transaction, redemptionTransaction, bind, query.
  rewrite Hg. cbv beta iota. rewrite Hp. cbv beta iota. rewrite Ht, Hr.
  cbn [String.eqb Ascii.eqb Bool.eqb negb andb]. rewrite Hws. cbv beta iota.
  split.
  - intros rv Hrv Hpos. rewrite Hrv. cbn [Number].
    assert (Qle_bool rv 0 = false) as ->.
    { apply Qltb_iff in Hpos. unfold Qltb in Hpos. now apply negb_true_iff. }
    unfold wallet_update, game_update, scratchCard_update, update, ret.
    rewrite Hw. cbn [games set_wallets]. rewrite Hgame.
    cbn [scratchCards set_games set_wallets]. rewrite Hc.
    do 4 eexists. split; [reflexivity|].
    destruct prisma;
      cbn [wallets games scratchCards set_wallets set_games set_scratchCards] in *.
    rewrite !findUnique_updateRows by reflexivity.
    rewrite Hw, Hgame, Hc. cbn. repeat split; reflexivity.
  - intro Hle. apply Qle_bool_iff in Hle. rewrite Hle. reflexivity.
Qed.

Lemma choose_money_redeems_witness :
  exists updatedGame prisma' w' c',
    chooseRedemption "u1" "g7" "money" Examples.redeemable
    = (Ok (mkRedemption updatedGame "money"), prisma') /\
    findUnique wallet_id "w1" (wallets prisma') = Some w' /\
    balance w' = 5 + 30 /\
    findUnique game_id "g7" (games prisma') = Some updatedGame /\
    redemption_choice updatedGame = true /\
    amount_won updatedGame = 30 /\
    prize_type updatedGame = Some "REDEMPTION" /\
    status updatedGame = "COMPLETED" /\
    findUnique card_id "sc1" (scratchCards prisma') = Some c' /\
    total_payouts c' = 0 + 30.
Proof.
  destruct (choose_money_redeems "u1" "g7" Examples.redeemable Examples.product_game
              Examples.prize_product Examples.alice_wallet [] Examples.card1)
    as [H _]; try reflexivity.
  apply (H 30); reflexivity.
Defined.

(** C7, as stated, fails on a game whose product prize carries no
    redemption value: the game is a completed winning game of the player,
    its prize is a product, the choice is open and the player has a
    wallet, and choosing money throws and writes nothing. *)
Lemma choose_money_counterexample :
  let prisma := Examples.retyped_played in
  (exists game prize,
     findEligibleGame "g1" "u1" prisma = Some game /\
     prizeOf game prisma = Some prize /\
     prize_type_of prize = "PRODUCT" /\
     redemption_choice game = false /\
     redemption_value prize = None /\
     walletsOf game prisma <> []) /\
  chooseRedemption "u1" "g1" "money" prisma
  = (Throw (ErroAoProcessarEscolha ValorDeResgateIndisponivel), prisma).
Proof.
  cbv zeta. split.
  - do 2 eexists. repeat split; try (vm_compute; reflexivity).
    vm_compute. discriminate.
  - vm_compute. reflexivity.
Qed.

(** C3, as the code has it: after a successful choice every further
    choice on the same game by the same player fails and writes nothing,
    so that the wallet is credited at most once: after the choice of
    money with the error that the choice has already been made, after the
    choice of the product with the error that the game is not eligible
    (the game is no longer [COMPLETED]).  The choice of the product
    credits nothing. *)
Theorem redemption_is_chosen_once userId gameId choice1 choice2 prisma answer prisma1 :
  chooseRedemption userId gameId choice1 prisma = (Ok answer, prisma1) ->
  (exists e,
     chooseRedemption userId gameId choice2 prisma1
     = (Throw (ErroAoProcessarEscolha e), prisma1) /\
     ((choice1 = "money" /\ e = EscolhaJaRealizada) \/
      (choice1 = "product" /\ e = JogoNaoElegivel))) /\
  (choice1 = "product" -> wallets prisma1 = wallets prisma).
Proof.
  unfold chooseRedemption at 1.
  destruct (transaction _ prisma) as [result d] eqn:T.
  intro H. injection H as Hr <-.
  destruct result as [a|e]; [|discriminate]. injection Hr as ->.
  apply transaction_Ok, redemptionTransaction_Ok in T
    as (game & prize & Hg & Hp & Ht & Hc & Hprizes & Hcase).
  assert (Hp' : forall g', prizeId g' = prizeId game -> prizeOf g' d = Some prize).
  { intros g' E. unfold prizeOf in *. now rewrite E, Hprizes. }
  unfold chooseRedemption, transaction, redemptionTransaction, bind, query.
  destruct Hcase as [(-> & Hgames)|(-> & Hgames & Hw & _)].
  - split; [|discriminate].
    unfold findEligibleGame in *. rewrite Hgames.
    rewrite (find_updateRows_kept game_id (eligible gameId userId) gameId)
      by (intros; now (apply eligible_key with userId || reflexivity)).
    rewrite Hg. cbn [option_map]. rewrite Hp' by reflexivity.
    rewrite Ht. cbn.
    eexists. split; [reflexivity|]. left. split; reflexivity.
  - split; [|intros _; exact Hw].
    unfold findEligibleGame in *. rewrite Hgames.
    rewrite (find_updateRows_gone game_id (eligible gameId userId) gameId).
    + eexists. split; [reflexivity|]. right. split; reflexivity.
    + intros; now apply eligible_key with userId.
    + intro g0. unfold eligible. cbn. now rewrite andb_false_r.
Qed.

Lemma redemption_is_chosen_once_witness :
  let prisma1 := snd (chooseRedemption "u1" "g7" "money" Examples.redeemable) in
  chooseRedemption "u1" "g7" "money" prisma1
  = (Throw (ErroAoProcessarEscolha EscolhaJaRealizada), prisma1).
Proof.
  cbv zeta.
  destruct (redemption_is_chosen_once "u1" "g7" "money" "money" Examples.redeemable
              (mkRedemption
                 (chose_money 30 Examples.product_game) "money")
              (snd (chooseRedemption "u1" "g7" "money" Examples.redeemable)))
    as [(e & H & [[_ He]|[Hc _]]) _].
  - vm_compute. reflexivity.
  - rewrite H, He. reflexivity.
  - discriminate Hc.
Defined.

(** C3, as stated, fails after the choice of the product: the second
    choice fails with the error that the game is not eligible, not with
    the error that the choice has already been made. *)
Lemma second_choice_counterexample :
  let first := chooseRedemption "u1" "g7" "product" Examples.redeemable in
  fst first = Ok (mkRedemption (chose_product Examples.product_game) "product") /\
  fst (chooseRedemption "u1" "g7" "money" (snd first))
  = Throw (ErroAoProcessarEscolha JogoNaoElegivel) /\
  fst (chooseRedemption "u1" "g7" "money" (snd first))
  <> Throw (ErroAoProcessarEscolha EscolhaJaRealizada).
Proof.
  cbv zeta. repeat split; try (vm_compute; reflexivity).
  vm_compute. discriminate.
Qed.

End Redemption.

(** ** The probabilities of the prizes of a card *)

Module PrizeProbabilities.

Import ScratchCardService Specification.

Lemma probabilityBound_store : probabilityBound Examples.store.
Proof.
  intro k. unfold activeProbability. cbn [Examples.store prizes filter
    Examples.prize_money prize_scratchCardId prize_is_active].
  destruct (String.eqb "sc1" k && true); cbn; discriminate.
Qed.

Lemma probabilityBound_redeemable : probabilityBound Examples.redeemable.
Proof.
  intro k. unfold activeProbability. cbn [Examples.redeemable prizes filter
    Examples.prize_money Examples.prize_product prize_scratchCardId prize_is_active].
  destruct (String.eqb "sc1" k && true); cbn; discriminate.
Qed.

Section Creation.

Variable isValidUrl : string -> bool.

Lemma andThen_Ok {A B} (r : Result A) (k : A -> Result B) (b : B) :
  andThen r k = Ok b -> exists a, r = Ok a /\ k a = Ok b.
Proof. destruct r as [a|e]; [|discriminate]. intro H. now exists a. Qed.

Lemma check_Ok (failed : bool) (m : string) (u : unit) :
  check failed m = Ok u -> failed = false.
Proof. unfold check. now destruct failed. Qed.








End Creation.

(** C9, evaluated: [addPrizeToScratchCard] and [updatePrize] validate the
    probability of the one prize they are given and not the sum over the
    card.  On stores where every card is within the bound, a second
    prize at probability 60 next to a prize at probability 100 is
    accepted, and so is raising a probability from 0 to 50 next to a prize
    at probability 100; both leave the card above 100. *)
Theorem prize_edits_exceed_the_probability_bound (isValidUrl : string -> bool) :
  probabilityBound Examples.store /\
  (exists prize prisma',
     addPrizeToScratchCard isValidUrl "sc1" Examples.extra_prize "p9" Examples.store
     = (Ok prize, prisma') /\
     activeProbability "sc1" prisma' == 160 /\
     ~ probabilityBound prisma') /\
  probabilityBound Examples.redeemable /\
  (exists prize prisma',
     updatePrize "p2" Examples.raise_probability Examples.redeemable
     = (Ok prize, prisma') /\
     activeProbability "sc1" prisma' == 150 /\
     ~ probabilityBound prisma').
Proof.
  split; [exact probabilityBound_store|].
  split; [|split; [exact probabilityBound_redeemable|]].
  - do 2 eexists. split; [vm_compute; reflexivity|].
    split; [vm_compute; reflexivity|].
    intro H. specialize (H "sc1"). vm_compute in H. now apply H.
  - do 2 eexists. split; [vm_compute; reflexivity|].
    split; [vm_compute; reflexivity|].
    intro H. specialize (H "sc1"). vm_compute in H. now apply H.
Qed.

End PrizeProbabilities.

(** ** The scenarios of the specification, evaluated *)

Module Scenarios.

Import ScratchCardService.

(** Below the target the multiplier is 1.2: the running sums are 36 and
    60.  A draw equal to a running sum still wins that prize. *)
Example draw_on_first_sum :
  determineGameResult Examples.card3 None 36
  = mkGameResult true (Some Examples.prize_thirty).
Proof. reflexivity. Qed.

Example draw_past_first_sum :
  determineGameResult Examples.card3 None (361 # 10)
  = mkGameResult true (Some Examples.prize_twenty).
Proof. reflexivity. Qed.

Example draw_on_last_sum :
  determineGameResult Examples.card3 None 60
  = mkGameResult true (Some Examples.prize_twenty).
Proof. reflexivity. Qed.

Example draw_past_last_sum :
  determineGameResult Examples.card3 None (601 # 10) = mkGameResult false None.
Proof. reflexivity. Qed.

(** For an influencer the running sums are 216 and 360: every draw below
    100 wins the first prize. *)
Example draw_of_influencer :
  determineGameResult Examples.card3 (Some Examples.vip) (999 # 10)
  = mkGameResult true (Some Examples.prize_thirty).
Proof. reflexivity. Qed.

(** Scenario A: price 1, one money prize of 10 at probability 100,
    balance 5: the play wins and the balance becomes 14. *)
Example scenario_A :
  let played := playScratchCard "u1" "sc1" 50 "g1" "ul1" (fun d => d) Examples.store in
  fst played = Ok (Examples.won_game "u1") /\
  option_map balance (findUnique wallet_id "w1" (wallets (snd played))) = Some 14 /\
  option_map total_revenue (findUnique card_id "sc1" (scratchCards (snd played)))
  = Some 1 /\
  option_map total_payouts (findUnique card_id "sc1" (scratchCards (snd played)))
  = Some 10 /\
  option_map credits (findUnique license_id "lic2" (licenses (snd played)))
  = Some 48%Z /\
  length (usageLicenses (snd played)) = 1%nat.
Proof. cbv zeta. repeat split; vm_compute; reflexivity. Qed.

(** Scenario B: balance 0.50, price 1: the play fails and the store is
    as before. *)
Example scenario_B :
  playScratchCard "u3" "sc1" 50 "g1" "ul1" (fun d => d) Examples.store
  = (Throw (ErroAoJogarRaspadinha SaldoInsuficiente), Examples.store).
Proof. vm_compute. reflexivity. Qed.

(** Scenario C: no license credit left, balance sufficient: the play
    fails and the store is as before. *)
Example scenario_C :
  playScratchCard "u1" "sc1" 50 "g1" "ul1" (fun d => d) Examples.no_credits_left
  = (Throw (ErroAoJogarRaspadinha
              (SistemaIndisponivel (Some "Créditos insuficientes"))),
     Examples.no_credits_left).
Proof. vm_compute. reflexivity. Qed.

(** A card without prizes is lost at any draw. *)
Example no_prize_no_win (c : ScratchCard) (u : option User) (r : Q) :
  determineGameResult (mkScratchCardWithPrizes c []) u r = mkGameResult false None.
Proof. reflexivity. Qed.

End Scenarios.

(** ** More on the outcome resolver *)

Module ResolverProperties.

Import ScratchCardService Specification Quantities.

Lemma walkPrizes_prize (prizes : list Prize) (m r : Q) :
  forall acc,
    (isWinner (walkPrizes prizes m r acc) = true ->
     exists p, prize (walkPrizes prizes m r acc) = Some p /\ In p prizes) /\
    (isWinner (walkPrizes prizes m r acc) = false ->
     prize (walkPrizes prizes m r acc) = None).
Proof.
  induction prizes as [|p rest IH]; intro acc; cbn [walkPrizes].
  - split; [discriminate|reflexivity].
  - destruct (Qle_bool r (acc + probability p * m)).
    + split; [|discriminate]. intros _. exists p. split; [reflexivity|now left].
    + destruct (IH (acc + probability p * m)) as [Hw Hl]. split; [|exact Hl].
      intro H. destruct (Hw H) as (q & Hq & Hin). exists q. split; [exact Hq|now right].
Qed.

Lemma walkPrizes_monotone (prizes : list Prize) (m r r' : Q) :
  r' <= r ->
  forall acc,
    isWinner (walkPrizes prizes m r acc) = true ->
    isWinner (walkPrizes prizes m r' acc) = true.
Proof.
  intro Hle. induction prizes as [|p rest IH]; intro acc; cbn [walkPrizes];
    [discriminate|].
  destruct (Qle_bool r (acc + probability p * m)) eqn:E.
  - intros _. apply Qle_bool_iff in E.
    assert (Qle_bool r' (acc + probability p * m) = true) as ->
      by (apply Qle_bool_iff; lra).
    reflexivity.
  - intro H. destruct (Qle_bool r' (acc + probability p * m)); [reflexivity|].
    now apply IH.
Qed.

Lemma offered_nonneg (prizes : list Prize) :
  Forall (fun p => 0 <= probability p) prizes -> 0 <= offered prizes.
Proof.
  unfold offered. induction 1 as [|p rest Hp _ IH]; cbn; [discriminate|]. lra.
Qed.

(** With probabilities and a multiplier that are not negative, the loop
    wins exactly when the draw is at most what all the prizes add to its
    running sum. *)
Lemma walkPrizes_wins_iff (prizes : list Prize) (m r : Q) :
  0 <= m ->
  Forall (fun p => 0 <= probability p) prizes ->
  forall acc,
    isWinner (walkPrizes prizes m r acc) = true
    <-> prizes <> [] /\ r <= acc + offered prizes * m.
Proof.
  intros Hm Hall. induction Hall as [|p rest Hp Hrest IH]; intro acc;
    cbn [walkPrizes].
  - split; [discriminate|]. now intros [H _].
  - pose proof (offered_nonneg rest Hrest) as Hsum.
    assert (Hprod : 0 <= offered rest * m) by now apply Qmult_le_0_compat.
    assert (Hoff : offered (p :: rest) * m == probability p * m + offered rest * m)
      by (unfold offered; cbn; ring).
    destruct (Qle_bool r (acc + probability p * m)) eqn:E.
    + apply Qle_bool_iff in E. split; [|reflexivity].
      intros _. split; [discriminate|]. rewrite Hoff. lra.
    + assert (Hgt : acc + probability p * m < r).
      { apply Qnot_le_lt. intro H. apply Qle_bool_iff in H. congruence. }
      rewrite IH. split.
      * intros [_ H]. split; [discriminate|]. rewrite Hoff. lra.
      * intros [_ H]. rewrite Hoff in H. split; [|lra].
        intros ->. unfold offered in H. cbn in H. lra.
Qed.

Lemma multiplier_positive (current target : Q) (priv : bool) :
  0 < multiplier current target priv.
Proof.
  unfold multiplier.
  destruct (Qltb current target), (Qltb target current), priv; reflexivity.
Qed.

Lemma determineGameResult_walk (scratchCard : ScratchCardWithPrizes)
      (user : option User) (r : Q) :
  determineGameResult scratchCard user r
  = walkPrizes (card_prizes scratchCard)
               (multiplier (current_rtp (card scratchCard))
                           (target_rtp (card scratchCard)) (privileged user))
               r 0.
Proof.
  unfold determineGameResult, multiplier, privileged, Qgtb.
  destruct (card_prizes scratchCard); [reflexivity|].
  destruct user as [u|]; [destruct (is_influencer u)|]; reflexivity.
Qed.

(** X1: the prize [determineGameResult] answers with is one of the prizes
    it was given, and it answers with a prize exactly when it answers
    with a win. *)
Theorem winner_is_an_offered_prize (scratchCard : ScratchCardWithPrizes)
    (user : option User) (r : Q) :
  (isWinner (determineGameResult scratchCard user r) = true ->
   exists p, prize (determineGameResult scratchCard user r) = Some p /\
             In p (card_prizes scratchCard)) /\
  (isWinner (determineGameResult scratchCard user r) = false ->
   prize (determineGameResult scratchCard user r) = None).
Proof. rewrite determineGameResult_walk. apply walkPrizes_prize. Qed.

Lemma winner_is_an_offered_prize_witness :
  exists p, prize (determineGameResult Examples.card3 None 50) = Some p /\
            In p [Examples.prize_thirty; Examples.prize_twenty].
Proof.
  destruct (winner_is_an_offered_prize Examples.card3 None 50) as [H _].
  apply H. reflexivity.
Defined.

(** X2: a draw that wins still wins when it is lowered: whatever the
    prizes and the multiplier, if the draw [r] wins then every draw
    [r' <= r] wins. *)
Theorem lower_draw_still_wins (scratchCard : ScratchCardWithPrizes)
    (user : option User) (r r' : Q) :
  r' <= r ->
  isWinner (determineGameResult scratchCard user r) = true ->
  isWinner (determineGameResult scratchCard user r') = true.
Proof.
  intro Hle. rewrite !determineGameResult_walk. now apply walkPrizes_monotone.
Qed.

Lemma lower_draw_still_wins_witness :
  isWinner (determineGameResult Examples.card3 None 10) = true.
Proof.
  apply (lower_draw_still_wins Examples.card3 None 60 10);
    [discriminate|reflexivity].
Defined.



(** X4: when no probability is negative, an influencer wins at every
    draw at which a player who is not one (or no player at all) wins on
    the same card. *)
Theorem influencer_wins_where_others_win (scratchCard : ScratchCardWithPrizes)
    (user : option User) (influencer : User) (r : Q) :
  Forall (fun p => 0 <= probability p) (card_prizes scratchCard) ->
  is_influencer influencer = true ->
  isWinner (determineGameResult scratchCard user r) = true ->
  isWinner (determineGameResult scratchCard (Some influencer) r) = true.
Proof.
  intros Hall Hinf. rewrite !determineGameResult_walk.
  set (cur := current_rtp (card scratchCard)).
  set (tgt := target_rtp (card scratchCard)).
  pose proof (multiplier_positive cur tgt (privileged user)) as Hm.
  pose proof (multiplier_positive cur tgt true) as Hm6.
  cbn [privileged]. rewrite Hinf.
  rewrite !walkPrizes_wins_iff by (exact Hall || (apply Qlt_le_weak; assumption)).
  intros [Hne H]. split; [exact Hne|].
  pose proof (offered_nonneg _ Hall) as Hoff.
  assert (Hmm : multiplier cur tgt (privileged user) <= multiplier cur tgt true).
  { unfold multiplier.
    destruct (Qltb cur tgt), (Qltb tgt cur), (privileged user);
      vm_compute; discriminate. }
  assert (offered (card_prizes scratchCard) * multiplier cur tgt (privileged user)
          <= offered (card_prizes scratchCard) * multiplier cur tgt true).
  { rewrite !(Qmult_comm (offered _)). apply Qmult_le_compat_nonneg.
    - split; [now apply Qlt_le_weak|exact Hmm].
    - split; [exact Hoff|apply Qle_refl]. }
  lra.
Qed.

Lemma influencer_wins_where_others_win_witness :
  isWinner (determineGameResult Examples.card3 (Some Examples.vip) 60) = true.
Proof.
  apply (influencer_wins_where_others_win Examples.card3 None Examples.vip 60).
  - repeat constructor; discriminate.
  - reflexivity.
  - reflexivity.
Defined.

End ResolverProperties.

(** ** More on playing a card *)

Module PlayProperties.

Import LicenseService ScratchCardService Specification Quantities.
Import LicenseFacts PlayFacts Play ResolverProperties.

(** The prize, its type and the amount a play has fixed before its
    transaction. *)
Lemma prepare_prize userId scratchCardId r prisma p :
  prepare userId scratchCardId r prisma = Ok p ->
  (isWinner (gameResult p) = false ->
   amountWon p = 0 /\ play_prizeId p = None /\ prizeType p = None) /\
  (isWinner (gameResult p) = true ->
   exists pz,
     In pz (card_prizes (play_card p)) /\
     play_prizeId p = Some (prize_id pz) /\
     prizeType p = Some (prize_type_of pz) /\
     amountWon p
     = if String.eqb (prize_type_of pz) "MONEY" then Number (value pz) else 0).
Proof.
  unfold prepare.
  destruct (findUserWithWallet userId prisma) as [uw|]; [|discriminate].
  destruct (wallet uw) as [|w ws]; [discriminate|].
  destruct (findActiveScratchCard scratchCardId prisma) as [sc|]; [|discriminate].
  destruct (hasEnoughCredits (price (card sc)) prisma) as [answer|e]; [|discriminate].
  destruct (negb (success answer)); [discriminate|].
  destruct (Qltb (balance w) (price (card sc))); [discriminate|].
  intro H. injection H as <-. cbn [gameResult amountWon play_prizeId prizeType play_card].
  set (g := determineGameResult sc (Some (user uw)) r).
  pose proof (determineGameResult_walk sc (Some (user uw)) r) as Hwalk.
  fold g in Hwalk.
  destruct (walkPrizes_prize (card_prizes sc)
              (multiplier (current_rtp (card sc)) (target_rtp (card sc))
                          (privileged (Some (user uw)))) r 0) as [Hw Hl].
  rewrite <- Hwalk in Hw, Hl. split.
  - intro E. rewrite (Hl E). cbn. repeat split.
  - intro E. destruct (Hw E) as (pz & Hpz & Hin). exists pz.
    rewrite Hpz, E. cbn. repeat split. exact Hin.
Qed.

Lemma findActiveScratchCard_prizes scratchCardId prisma sc pz :
  findActiveScratchCard scratchCardId prisma = Some sc ->
  In pz (card_prizes sc) ->
  In pz (prizes prisma) /\ prize_scratchCardId pz = scratchCardId /\
  prize_is_active pz = true.
Proof.
  unfold findActiveScratchCard.
  destruct (findUnique card_id scratchCardId (scratchCards prisma)) as [c|];
    [|discriminate].
  destruct (card_is_active c); [|discriminate].
  destruct (deleted_at c); [discriminate|].
  intro H. injection H as <-. cbn [card_prizes]. intro Hin.
  apply filter_In in Hin as [Hin Hf]. apply andb_true_iff in Hf as [Hc Ha].
  apply String.eqb_eq in Hc. tauto.
Qed.

(** X5: the game row a committed play stores and answers with carries
    the ids of the call, status [COMPLETED] and an open redemption choice.
    A lost game has amount 0, no prize and no prize type.  A won game
    refers to a prize that was stored as an active prize of that card
    when the play read it; its amount is the value of the prize when the
    prize is money, and 0 otherwise. *)
Theorem committed_play_records_its_outcome userId scratchCardId r gameId usageId
    concurrent prisma game prisma' :
  playScratchCard userId scratchCardId r gameId usageId concurrent prisma
  = (Ok game, prisma') ->
  In game (games prisma') /\
  game_id game = gameId /\ game_userId game = userId /\
  game_scratchCardId game = scratchCardId /\
  status game = "COMPLETED" /\ redemption_choice game = false /\
  (is_winner game = false ->
   amount_won game = 0 /\ prizeId game = None /\ prize_type game = None) /\
  (is_winner game = true ->
   exists pz,
     In pz (prizes prisma) /\ prize_scratchCardId pz = scratchCardId /\
     prize_is_active pz = true /\
     prizeId game = Some (prize_id pz) /\
     prize_type game = Some (prize_type_of pz) /\
     amount_won game
     = if String.eqb (prize_type_of pz) "MONEY" then Number (value pz) else 0).
Proof.
  intro Hplay. apply playScratchCard_Ok in Hplay as (p & Hprep & Htx).
  pose proof (prepare_prize _ _ _ _ _ Hprep) as [Hlost Hwon].
  apply prepare_Ok in Hprep as (ws & answer & _ & _ & Hc & _).
  apply playTransaction_Ok in Htx as (Hgame & _ & Hgames & _).
  split.
  { rewrite Hgames. unfold createRow. apply in_or_app. right. now left. }
  subst game. cbn. repeat (split; [reflexivity|]). split; [exact Hlost|].
  intro E. destruct (Hwon E) as (pz & Hin & Hid & Hty & Ham).
  exists pz. destruct (findActiveScratchCard_prizes _ _ _ _ Hc Hin) as (? & ? & ?).
  tauto.
Qed.

Lemma committed_play_records_its_outcome_witness :
  In (Examples.won_game "u1")
     (games (snd (playScratchCard "u1" "sc1" 50 "g1" "ul1" (fun d => d)
                                  Examples.store))) /\
  exists pz,
    In pz (prizes Examples.store) /\ prize_is_active pz = true /\
    Some "p1" = Some (prize_id pz).
Proof.
  destruct (committed_play_records_its_outcome "u1" "sc1" 50 "g1" "ul1"
              (fun d => d) Examples.store (Examples.won_game "u1")
              (snd (playScratchCard "u1" "sc1" 50 "g1" "ul1" (fun d => d)
                                    Examples.store)))
    as (Hin & _ & _ & _ & _ & _ & _ & Hwon); [vm_compute; reflexivity|].
  split; [exact Hin|].
  destruct (Hwon eq_refl) as (pz & H1 & _ & H3 & H4 & _).
  exists pz. tauto.
Defined.

(** X6: a committed play adds one to the [total_scratchs] of the player
    and one to exactly one of [total_wins] and [total_losses]: to the wins
    when the game is won, to the losses when it is lost.  [stored] is the
    row of the player when the transaction opens. *)
Theorem committed_play_counts_once userId scratchCardId r gameId usageId
    concurrent prisma game prisma' stored :
  playScratchCard userId scratchCardId r gameId usageId concurrent prisma
  = (Ok game, prisma') ->
  findUnique user_id userId (users (concurrent prisma)) = Some stored ->
  exists updated,
    findUnique user_id userId (users prisma') = Some updated /\
    total_scratchs updated = (total_scratchs stored + 1)%Z /\
    (total_wins updated + total_losses updated
     = total_wins stored + total_losses stored + 1)%Z /\
    (is_winner game = true ->
     total_wins updated = (total_wins stored + 1)%Z /\
     total_losses updated = total_losses stored) /\
    (is_winner game = false ->
     total_losses updated = (total_losses stored + 1)%Z /\
     total_wins updated = total_wins stored) /\
    is_influencer updated = is_influencer stored.
Proof.
  intros Hplay Hstored. apply playScratchCard_Ok in Hplay as (p & _ & Htx).
  apply playTransaction_Ok in Htx as (Hgame & _ & _ & Husers & _).
  rewrite Husers, findUnique_updateRows by reflexivity. rewrite Hstored.
  eexists. split; [reflexivity|]. subst game. cbn.
  destruct (isWinner (gameResult p)); cbn; repeat split; try discriminate; lia.
Qed.

Lemma committed_play_counts_once_witness :
  exists updated,
    findUnique user_id "u1"
      (users (snd (playScratchCard "u1" "sc1" 50 "g1" "ul1" (fun d => d)
                                   Examples.store))) = Some updated /\
    total_scratchs updated = 1%Z /\ total_wins updated = 1%Z /\
    total_losses updated = 0%Z.
Proof.
  destruct (committed_play_counts_once "u1" "sc1" 50 "g1" "ul1" (fun d => d)
              Examples.store (Examples.won_game "u1")
              (snd (playScratchCard "u1" "sc1" 50 "g1" "ul1" (fun d => d)
                                    Examples.store))
              Examples.alice)
    as (updated & H & Hs & _ & Hw & _); [vm_compute; reflexivity|reflexivity|].
  exists updated. destruct (Hw eq_refl) as [H1 H2]. cbn in *. tauto.
Defined.

End PlayProperties.

(** ** More on the license meter *)

Module LicenseProperties.

Import LicenseService ScratchCardService Quantities.
Import LicenseFacts PlayFacts Play.

Lemma hasEnoughCredits_creditsFor (amount : Q) (prisma : DB) :
  hasEnoughCredits amount prisma
  = match getCurrentLicense prisma with
    | Throw e => Throw e
    | Ok l =>
        if negb (is_active l) then Ok (LicencaInativa l)
        else if (credits l <? creditsFor amount l)%Z
             then Ok (CreditosInsuficientes (creditsFor amount l) (credits l) l)
             else Ok (CreditosSuficientes (creditsFor amount l) (credits l) l)
    end.
Proof. reflexivity. Qed.


Lemma creditsFor_nonneg (amount : Q) (l : License) :
  0 <= amount -> (0 <= creditsFor amount l)%Z.
Proof.
  intro Ha. unfold creditsFor, Qgtb.
  destruct (Qltb 0 (credits_value l)) eqn:E; [|lia].
  apply Qltb_iff in E. rewrite <- (Qceiling_Z 0). apply Qceiling_resp_le.
  unfold Qdiv. apply Qmult_le_0_compat; [exact Ha|].
  apply Qinv_le_0_compat. now apply Qlt_le_weak.
Qed.

Lemma creditsFor_positive (amount : Q) (l : License) :
  0 < amount -> (1 <= creditsFor amount l)%Z.
Proof.
  intro Ha. unfold creditsFor, Qgtb.
  destruct (Qltb 0 (credits_value l)) eqn:E; [|lia].
  apply Qltb_iff in E.
  assert (Hpos : 0 < amount / credits_value l).
  { unfold Qdiv. apply Qmult_lt_0_compat; [exact Ha|]. now apply Qinv_lt_0_compat. }
  pose proof (Qle_ceiling (amount / credits_value l)) as Hc.
  assert (H : (0 < inject_Z (Qceiling (amount / credits_value l)))%Q) by lra.
  unfold Qlt in H. cbn in H. lia.
Qed.





(** X8: whatever [consumeCreditsAndAddEarnings] answers, every license row
    of the store it writes to keeps the sum of [credits] and
    [credits_used], its [credits_value], [ggr_percentage] and [is_active];
    for an amount that is not negative no [credits_used] goes down; and
    an answer other than success comes with the store as it was. *)
Theorem consumption_keeps_the_credit_total amount userId scratchCardId newId
    prisma tx answer tx' k row :
  consumeCreditsAndAddEarnings amount userId scratchCardId newId prisma tx
  = Ok (answer, tx') ->
  findUnique license_id k (licenses tx) = Some row ->
  (exists row',
     findUnique license_id k (licenses tx') = Some row' /\
     (credits row' + credits_used row' = credits row + credits_used row)%Z /\
     (0 <= amount -> (credits_used row <= credits_used row')%Z) /\
     credits_value row' = credits_value row /\
     ggr_percentage row' = ggr_percentage row /\
     is_active row' = is_active row) /\
  (consume_success answer = false -> tx' = tx).
Proof.
  unfold consumeCreditsAndAddEarnings. rewrite hasEnoughCredits_creditsFor.
  destruct (getCurrentLicense prisma) as [l|e]; [|discriminate].
  assert (Hsame : exists row', Some row = Some row' /\
            (credits row' + credits_used row' = credits row + credits_used row)%Z /\
            (0 <= amount -> (credits_used row <= credits_used row')%Z) /\
            credits_value row' = credits_value row /\
            ggr_percentage row' = ggr_percentage row /\
            is_active row' = is_active row).
  { exists row. repeat split; lia. }
  destruct (negb (is_active l)).
  { intros H Hrow. injection H as <- <-. rewrite Hrow. tauto. }
  destruct (credits l <? creditsFor amount l)%Z.
  { intros H Hrow. injection H as <- <-. rewrite Hrow. tauto. }
  unfold bind, license_update, update, create, ret.
  destruct (findUnique license_id (license_id l) (licenses tx)) as [stored|] eqn:Es.
  2: { intros H Hrow. injection H as <- <-. rewrite Hrow. tauto. }
  intros H Hrow. injection H as <- <-. split; [|discriminate].
  destruct tx; cbn [licenses set_licenses set_usageLicenses] in *.
  destruct (String.eqb k (license_id l)) eqn:Ek.
  - apply String.eqb_eq in Ek. subst k.
    rewrite findUnique_updateRows by reflexivity. rewrite Hrow.
    eexists. split; [reflexivity|]. cbn.
    repeat split; try lia.
    intro Ha. pose proof (creditsFor_nonneg amount l Ha). lia.
  - apply String.eqb_neq in Ek.
    rewrite findUnique_updateRows_other by (reflexivity || exact Ek).
    rewrite Hrow. exact Hsame.
Qed.

Lemma consumption_keeps_the_credit_total_witness :
  exists tx' row',
    consumeCreditsAndAddEarnings 1 "u1" "sc1" "ul1" Examples.store Examples.store
    = Ok (ConsumeOk 2 (1 * (10 / 100)) Examples.license_new, tx') /\
    findUnique license_id "lic2" (licenses tx') = Some row' /\
    (credits row' + credits_used row' = 50 + 3)%Z /\
    (3 <= credits_used row')%Z.
Proof.
  destruct (consumption_keeps_the_credit_total 1 "u1" "sc1" "ul1"
              Examples.store Examples.store
              (ConsumeOk 2 (1 * (10 / 100)) Examples.license_new)
              (match consumeCreditsAndAddEarnings 1 "u1" "sc1" "ul1"
                       Examples.store Examples.store with
               | Ok (_, d) => d
               | Throw _ => Examples.store
               end)
              "lic2" Examples.license_new)
    as [(row' & H1 & H2 & H3 & _) _]; [reflexivity|reflexivity|].
  do 2 eexists. split; [reflexivity|]. split; [exact H1|].
  split; [exact H2|]. apply H3. discriminate.
Defined.

End LicenseProperties.

(** ** Plays and the license meter *)

Module PlayAndLicense.

Import LicenseService ScratchCardService Quantities.
Import LicenseFacts PlayFacts Play LicenseProperties.




Lemma findUnique_member {A} (key : A -> Id) (k : Id) (t : list A) (a : A) :
  findUnique key k t = Some a -> In a t.
Proof. unfold findUnique. intro H. now apply find_some in H. Qed.

(** X10: no play commits on a closed meter.  With no license row, with
    an inactive current license, or with a current license without
    credits while every card has a positive price, [playScratchCard]
    throws for every player, card and draw, and leaves the store as it
    was. *)
Theorem closed_meter_blocks_every_play userId scratchCardId r gameId usageId
    concurrent prisma :
  (licenses prisma = []
   \/ exists l, getCurrentLicense prisma = Ok l /\
                (is_active l = false
                 \/ ((credits l <= 0)%Z /\
                     forall c, In c (scratchCards prisma) -> 0 < price c))) ->
  exists e,
    playScratchCard userId scratchCardId r gameId usageId concurrent prisma
    = (Throw (ErroAoJogarRaspadinha e), prisma).
Proof.
  intro Hclosed. unfold playScratchCard, prepare.
  destruct (findUserWithWallet userId prisma) as [uw|]; [|eexists; reflexivity].
  destruct (wallet uw) as [|w ws]; [eexists; reflexivity|].
  destruct (findActiveScratchCard scratchCardId prisma) as [sc|] eqn:Esc;
    [|eexists; reflexivity].
  rewrite hasEnoughCredits_creditsFor.
  destruct Hclosed as [Hnone|(l & Hcur & Hl)].
  - rewrite (getCurrentLicense_empty _ Hnone). eexists; reflexivity.
  - rewrite Hcur. destruct Hl as [Hoff|[Hzero Hprice]].
    + rewrite Hoff. cbn. eexists; reflexivity.
    + destruct (negb (is_active l)); [cbn; eexists; reflexivity|].
      assert (Hneed : (1 <= creditsFor (price (card sc)) l)%Z).
      { apply creditsFor_positive, Hprice.
        apply findActiveScratchCard_card in Esc.
        now apply findUnique_member in Esc. }
      assert ((credits l <? creditsFor (price (card sc)) l)%Z = true) as ->
        by (apply Z.ltb_lt; lia).
      cbn. eexists; reflexivity.
Qed.

Lemma closed_meter_blocks_every_play_witness :
  exists e,
    playScratchCard "u1" "sc1" 50 "g1" "ul1" (fun d => d) Examples.no_credits_left
    = (Throw (ErroAoJogarRaspadinha e), Examples.no_credits_left).
Proof.
  apply closed_meter_blocks_every_play. right.
  exists (with_credits 0 Examples.license_new). split; [reflexivity|].
  right. split; [discriminate|].
  intros c [<-|[<-|[]]]; reflexivity.
Defined.

End PlayAndLicense.

(** ** More on the redemption choice *)

Module RedemptionProperties.

Import ScratchCardService UserService RedemptionFacts.

Lemma find_nowhere {A} (pred : A -> bool) (t : list A) :
  (forall a, In a t -> pred a = false) -> find pred t = None.
Proof.
  induction t as [|a t IH]; intro H; cbn; [reflexivity|].
  rewrite (H a) by now left. apply IH. intros; apply H; now right.
Qed.

(** X11: on a completed winning game of the player whose prize is a
    product and whose choice is still open, choosing the product
    succeeds, with or without a redemption value: the game gets status
    [PENDING_DELIVERY] and prize type ["PRODUCT"], keeps its amount and a
    [redemption_choice] of [false], no wallet, card or prize is written,
    and the game is no longer eligible for a choice. *)
Theorem choose_product_awaits_delivery userId gameId prisma game prize w ws :
  findEligibleGame gameId userId prisma = Some game ->
  prizeOf game prisma = Some prize ->
  prize_type_of prize = "PRODUCT" ->
  redemption_choice game = false ->
  walletsOf game prisma = w :: ws ->
  findUnique game_id gameId (games prisma) = Some game ->
  exists updatedGame prisma',
    chooseRedemption userId gameId "product" prisma
    = (Ok (mkRedemption updatedGame "product"), prisma') /\
    findUnique game_id gameId (games prisma') = Some updatedGame /\
    status updatedGame = "PENDING_DELIVERY" /\
    prize_type updatedGame = Some "PRODUCT" /\
    redemption_choice updatedGame = false /\
    amount_won updatedGame = amount_won game /\
    wallets prisma' = wallets prisma /\
    scratchCards prisma' = scratchCards prisma /\
    prizes prisma' = prizes prisma /\
    findEligibleGame gameId userId prisma' = None.
Proof.
  intros Hg Hp Ht Hr Hws Hgame.
  unfold chooseRedemption, transaction, redemptionTransaction, bind, query.
  rewrite Hg. cbv beta iota. rewrite Hp. cbv beta iota. rewrite Ht, Hr.
  cbn [String.eqb Ascii.eqb Bool.eqb negb andb]. rewrite Hws. cbv beta iota.
  unfold game_update, update, ret. rewrite Hgame.
  do 2 eexists. split; [reflexivity|].
  destruct prisma; cbn [wallets games scratchCards prizes set_games] in *.
  rewrite findUnique_updateRows by reflexivity. rewrite Hgame.
  repeat (split; [reflexivity|]).
  unfold findEligibleGame. cbn [games].
  apply (find_updateRows_gone game_id (eligible gameId userId) gameId).
  - intros; now apply eligible_key with userId.
  - intro g0. unfold eligible. cbn. now rewrite andb_false_r.
Qed.

Lemma choose_product_awaits_delivery_witness :
  exists updatedGame prisma',
    chooseRedemption "u1" "g7" "product" Examples.redeemable
    = (Ok (mkRedemption updatedGame "product"), prisma') /\
    status updatedGame = "PENDING_DELIVERY" /\
    wallets prisma' = wallets Examples.redeemable /\
    findEligibleGame "g7" "u1" prisma' = None.
Proof.
  destruct (choose_product_awaits_delivery "u1" "g7" Examples.redeemable
              Examples.product_game Examples.prize_product
              Examples.alice_wallet [])
    as (g & d & H1 & _ & H3 & _ & _ & _ & H7 & _ & _ & H10); try reflexivity.
  exists g, d. tauto.
Defined.

(** X12: a player redeems only a game of their own that is won and
    completed: when every game row with the given id belongs to another
    player, is lost, or has another status than [COMPLETED], every
    choice fails with the not-eligible error and writes nothing. *)
Theorem only_the_winner_chooses userId gameId choice prisma :
  (forall g, In g (games prisma) -> game_id g = gameId ->
             game_userId g <> userId \/ is_winner g = false
             \/ status g <> "COMPLETED") ->
  chooseRedemption userId gameId choice prisma
  = (Throw (ErroAoProcessarEscolha JogoNaoElegivel), prisma).
Proof.
  intro H. unfold chooseRedemption, transaction, redemptionTransaction, bind, query.
  unfold findEligibleGame. rewrite find_nowhere; [reflexivity|].
  intros g Hin. unfold eligible.
  destruct (String.eqb (game_id g) gameId) eqn:E; [|reflexivity].
  apply String.eqb_eq in E. destruct (H g Hin E) as [Hu|[Hw|Hs]].
  - apply String.eqb_neq in Hu. now rewrite Hu.
  - rewrite Hw. now rewrite andb_false_r.
  - apply String.eqb_neq in Hs. rewrite Hs. now rewrite andb_false_r.
Qed.

Lemma only_the_winner_chooses_witness :
  chooseRedemption "u2" "g7" "money" Examples.redeemable
  = (Throw (ErroAoProcessarEscolha JogoNaoElegivel), Examples.redeemable).
Proof.
  apply only_the_winner_chooses.
  intros g [<-|[]] _. left. discriminate.
Defined.

(** X13: a game whose prize is not a product (a money prize, already
    credited by the play, or no prize row) is never redeemed: on such a
    game of the player every choice fails with the not-a-product error
    and writes nothing. *)
Theorem money_prize_is_not_redeemed userId gameId choice prisma game :
  findEligibleGame gameId userId prisma = Some game ->
  (prizeOf game prisma = None
   \/ exists prize, prizeOf game prisma = Some prize /\
                    prize_type_of prize <> "PRODUCT") ->
  chooseRedemption userId gameId choice prisma
  = (Throw (ErroAoProcessarEscolha PremioNaoEProduto), prisma).
Proof.
  intros Hg Hp. unfold chooseRedemption, transaction, redemptionTransaction, bind, query.
  rewrite Hg. cbv beta iota. destruct Hp as [->|(prize & -> & Ht)]; [reflexivity|].
  cbv beta iota. apply String.eqb_neq in Ht. rewrite Ht. reflexivity.
Qed.

Lemma money_prize_is_not_redeemed_witness :
  let played :=
    snd (playScratchCard "u1" "sc1" 50 "g1" "ul1" (fun d => d) Examples.store) in
  chooseRedemption "u1" "g1" "money" played
  = (Throw (ErroAoProcessarEscolha PremioNaoEProduto), played).
Proof.
  cbv zeta.
  apply (money_prize_is_not_redeemed "u1" "g1" "money" _ (Examples.won_game "u1")).
  - vm_compute. reflexivity.
  - right. exists Examples.prize_money. split; [vm_compute; reflexivity|discriminate].
Defined.

End RedemptionProperties.

(** ** More on the prizes of a card *)

Module PrizeProperties.

Import ScratchCardService Specification Quantities PrizeProbabilities.

Lemma validatePrizeType_Ok (type : option string) (u : unit) :
  validatePrizeType type = Ok u -> type = Some "MONEY" \/ type = Some "PRODUCT".
Proof.
  destruct type as [s|]; [|discriminate].
  destruct (String.eqb s "MONEY") eqn:Em.
  { apply String.eqb_eq in Em. subst. now left. }
  destruct (String.eqb s "PRODUCT") eqn:Ep.
  { apply String.eqb_eq in Ep. subst. now right. }
  intro H. exfalso. revert Em Ep H. unfold validatePrizeType.
  repeat (destruct s as [|[[] [] [] [] [] [] [] []] s]; cbn;
          try discriminate; try (intros; discriminate)).
Qed.

Lemma positive_number (x : option Q) (u : unit) (m : string) :
  check match truthyNumber x with
        | Some v => Qle_bool v 0
        | None => true
        end m = Ok u ->
  exists v, truthyNumber x = Some v /\ 0 < v.
Proof.
  intro H. apply check_Ok in H.
  destruct (truthyNumber x) as [v|]; [|discriminate].
  exists v. split; [reflexivity|]. apply Qnot_le_lt. intro L.
  apply Qle_bool_iff in L. congruence.
Qed.

(** The row stored for a prize that passed [validatePrizeData]. *)
Lemma validatePrizeData_row isValidUrl (prize : PrizeData) (u : unit) id scratchCardId :
  validatePrizeData isValidUrl prize = Ok u ->
  wellFormedPrize (prizeRow id scratchCardId prize).
Proof.
  unfold validatePrizeData. intro H.
  apply andThen_Ok in H as (? & _ & H).
  apply andThen_Ok in H as (? & Ht & H).
  apply andThen_Ok in H as (? & Hp & H).
  apply andThen_Ok in H as (? & _ & H).
  unfold validateProbability in Hp.
  destruct (pd_probability prize) as [q|] eqn:Eq; [|discriminate].
  apply check_Ok, orb_false_elim in Hp as [Hlo Hhi].
  apply Qltb_false_iff in Hlo. unfold Qgtb in Hhi. apply Qltb_false_iff in Hhi.
  unfold wellFormedPrize, prizeRow. cbn. rewrite Eq. cbn.
  split; [exact Hlo|]. split; [exact Hhi|].
  apply validatePrizeType_Ok in Ht as [Ht|Ht]; rewrite Ht in *; cbn in *.
  - left. split; [reflexivity|]. now apply positive_number in H.
  - right. split; [reflexivity|].
    apply andThen_Ok in H as (? & Hn & H). split.
    + apply check_Ok in Hn. unfold tooShort in Hn.
      destruct (truthyString (pd_product_name prize)) as [n|]; [|discriminate].
      now exists n.
    + now apply positive_number in H.
Qed.







(** X16: a prize that [addPrizeToScratchCard] accepts is stored as one
    new row after the others, for a card that exists and is not deleted;
    the row is well formed (probability between 0 and 100; a positive
    value for money; a product name and a positive redemption value for a
    product), so that choosing money on a game that won it finds a
    redemption value.  Nothing else is written. *)
Theorem added_prize_is_well_formed isValidUrl scratchCardId prizeData newPrizeId
    prisma row prisma' :
  addPrizeToScratchCard isValidUrl scratchCardId prizeData newPrizeId prisma
  = (Ok row, prisma') ->
  (exists c, findUnique card_id scratchCardId (scratchCards prisma) = Some c /\
             deleted_at c = None) /\
  prizes prisma' = (prizes prisma ++ [row])%list /\
  prize_id row = newPrizeId /\ prize_scratchCardId row = scratchCardId /\
  wellFormedPrize row /\
  scratchCards prisma' = scratchCards prisma /\ games prisma' = games prisma /\
  wallets prisma' = wallets prisma.
Proof.
  unfold addPrizeToScratchCard.
  destruct (findUnique card_id scratchCardId (scratchCards prisma)) as [c|] eqn:Ec;
    [|discriminate].
  destruct c as [i p a [t|] tr cr rev pay n]; [discriminate|].
  destruct (validatePrizeData isValidUrl prizeData) as [u|e] eqn:V; [|discriminate].
  intro H. injection H as <- <-. split.
  { eexists. split; [reflexivity|reflexivity]. }
  cbn. repeat (split; [reflexivity|]). split; [|tauto].
  now apply validatePrizeData_row with isValidUrl u.
Qed.

Lemma added_prize_is_well_formed_witness :
  exists row prisma',
    addPrizeToScratchCard Requests.any_url "sc1" Examples.extra_prize "p9"
                          Examples.store = (Ok row, prisma') /\
    wellFormedPrize row /\ length (prizes prisma') = 2%nat.
Proof.
  do 2 eexists. split; [reflexivity|].
  destruct (added_prize_is_well_formed Requests.any_url "sc1" Examples.extra_prize
              "p9" Examples.store _ _ eq_refl) as (_ & _ & _ & _ & H & _).
  split; [exact H|reflexivity].
Defined.

(** X17: [updatePrize] writes the one prize it is given the id of: its id
    and card stay, every prize under another id is as before, and a
    probability that was between 0 and 100 still is.  A probability of 0
    in the request passes the validation and is then not written: the
    prize keeps the probability it had.  A probability below 0 or above
    100, or an id without a prize, makes the call throw and write
    nothing. *)
Theorem updatePrize_edits_one_prize prizeId updateData prisma :
  (forall row prisma',
     updatePrize prizeId updateData prisma = (Ok row, prisma') ->
     exists old,
       findUnique prize_id prizeId (prizes prisma) = Some old /\
       findUnique prize_id prizeId (prizes prisma') = Some row /\
       prize_id row = prize_id old /\
       prize_scratchCardId row = prize_scratchCardId old /\
       (forall k, k <> prizeId ->
          findUnique prize_id k (prizes prisma')
          = findUnique prize_id k (prizes prisma)) /\
       (0 <= probability old /\ probability old <= 100 ->
        0 <= probability row /\ probability row <= 100) /\
       (forall q, pd_probability updateData = Some q -> q == 0 ->
                  probability row = probability old) /\
       (forall q, pd_probability updateData = Some q -> ~ q == 0 ->
                  probability row = q) /\
       (pd_probability updateData = None -> probability row = probability old)) /\
  (forall q, pd_probability updateData = Some q -> q < 0 \/ 100 < q ->
             exists e, updatePrize prizeId updateData prisma = (Throw e, prisma)) /\
  (findUnique prize_id prizeId (prizes prisma) = None ->
   updatePrize prizeId updateData prisma
   = (Throw (ErroAoAtualizarPremio PremioNaoEncontrado), prisma)).
Proof.
  unfold updatePrize. split; [|split].
  - intros row prisma'.
    destruct (findUnique prize_id prizeId (prizes prisma)) as [old|] eqn:Eo;
      [|discriminate].
    destruct (andThen _ _) as [u|e] eqn:V; [|discriminate].
    intro H. injection H as <- <-. exists old. split; [reflexivity|].
    destruct prisma; cbn [prizes set_prizes] in *.
    rewrite findUnique_updateRows by reflexivity. rewrite Eo.
    split; [reflexivity|]. split; [reflexivity|]. split; [reflexivity|].
    split; [intros k Hk; now apply findUnique_updateRows_other|].
    apply andThen_Ok in V as (? & Vp & _). cbn [prizeUpdate probability].
    destruct (pd_probability updateData) as [q|]; cbn [truthyNumber].
    + unfold validateProbability in Vp.
      apply check_Ok, orb_false_elim in Vp as [Hlo Hhi].
      apply Qltb_false_iff in Hlo. unfold Qgtb in Hhi. apply Qltb_false_iff in Hhi.
      destruct (Qeq_bool q 0) eqn:Ez; cbn [orElse].
      * apply Qeq_bool_iff in Ez. split; [tauto|]. split; [|split].
        -- intros q' E _. reflexivity.
        -- intros q' E Hn. injection E as <-. contradiction.
        -- discriminate.
      * apply Qeq_bool_neq in Ez. split; [tauto|]. split; [|split].
        -- intros q' E Hz. injection E as <-. contradiction.
        -- intros q' E _. now injection E.
        -- discriminate.
    + cbn [orElse]. split; [tauto|]. split; [|split]; try discriminate.
      reflexivity.
  - intros q Eq Hq.
    destruct (findUnique prize_id prizeId (prizes prisma)) as [old|];
      [|eexists; reflexivity].
    rewrite Eq. unfold validateProbability.
    assert (Qltb q 0 || Qgtb q 100 = true) as ->.
    { apply orb_true_iff. unfold Qgtb. rewrite !Qltb_iff. exact Hq. }
    cbn. eexists; reflexivity.
  - now intros ->.
Qed.

Lemma updatePrize_edits_one_prize_witness :
  exists row prisma',
    updatePrize "p1" Requests.zero_probability Examples.store = (Ok row, prisma') /\
    probability row = 100.
Proof.
  destruct (updatePrize_edits_one_prize "p1" Requests.zero_probability Examples.store)
    as (H & _ & _).
  do 2 eexists. split; [reflexivity|].
  destruct (H _ _ eq_refl) as (old & Ho & _ & _ & _ & _ & _ & Hz & _).
  injection Ho as <-. apply (Hz 0); reflexivity.
Defined.

End PrizeProperties.

(** ** Deleting and updating cards and prizes *)

Module AdministrationProperties.

Import ScratchCardService UserService CardAdministration.
Import Play PlayProperties RedemptionFacts.

Lemma findUnique_filter_other {A} (key : A -> Id) (k k' : Id) (t : list A) :
  k' <> k ->
  findUnique key k' (filter (fun a => negb (String.eqb (key a) k)) t)
  = findUnique key k' t.
Proof.
  intro Hne. unfold findUnique. induction t as [|a t IH]; cbn; [reflexivity|].
  destruct (String.eqb (key a) k) eqn:E; cbn.
  - apply String.eqb_eq in E.
    assert (String.eqb (key a) k' = false) as ->
      by (apply String.eqb_neq; congruence).
    exact IH.
  - destruct (String.eqb (key a) k'); [reflexivity|exact IH].
Qed.

Lemma gamesWithPrize_positive (k : Id) (d : DB) (g : Game) :
  In g (games d) -> prizeId g = Some k -> (0 < gamesWithPrize k d)%nat.
Proof.
  intros Hin Hk. unfold gamesWithPrize.
  destruct (filter _ (games d)) as [|x r] eqn:E; [|cbn; lia].
  exfalso. assert (Hf : In g (filter (fun g0 => match prizeId g0 with
                                                | Some k0 => String.eqb k0 k
                                                | None => false
                                                end) (games d))).
  { apply filter_In. split; [exact Hin|]. rewrite Hk. apply String.eqb_refl. }
  rewrite E in Hf. contradiction.
Qed.

Lemma updateRows_member {A} (key : A -> Id) (k : Id) (f : A -> A) (t : list A) (x : A) :
  In x (updateRows key k f t) ->
  exists a, In a t /\ ((key a = k /\ x = f a) \/ (key a <> k /\ x = a)).
Proof.
  unfold updateRows. intro H. apply in_map_iff in H as (a & Hx & Hin).
  exists a. split; [exact Hin|].
  destruct (String.eqb (key a) k) eqn:E.
  - apply String.eqb_eq in E. left. auto.
  - apply String.eqb_neq in E. right. auto.
Qed.

(** X18: [deletePrize] never removes a prize that a game refers to: such
    a prize is deactivated and keeps its columns, so every game keeps its
    prize; a prize without games is removed.  Either way no game is
    written, the prizes under other ids are as before, and the prize is
    no longer offered with any card.  Without a prize under the id the
    call throws and writes nothing. *)
Theorem deletePrize_keeps_won_prizes prizeId' prisma :
  (forall answer prisma',
     deletePrize prizeId' prisma = (Returned answer, prisma') ->
     games prisma' = games prisma /\
     scratchCards prisma' = scratchCards prisma /\
     (forall k, k <> prizeId' ->
        findUnique prize_id k (prizes prisma')
        = findUnique prize_id k (prizes prisma)) /\
     (forall g p, In g (games prisma) -> prizeOf g prisma = Some p ->
        prizeOf g prisma' = Some p
        \/ (prize_id p = prizeId' /\ prizeOf g prisma' = Some (deactivate_prize p))) /\
     (forall cardId sc p, findActiveScratchCard cardId prisma' = Some sc ->
        In p (card_prizes sc) -> prize_id p <> prizeId') /\
     ((0 < gamesWithPrize prizeId' prisma)%nat ->
      exists p, answer = Deactivated p /\
                findUnique prize_id prizeId' (prizes prisma') = Some p /\
                prize_is_active p = false) /\
     (gamesWithPrize prizeId' prisma = 0%nat ->
      exists p, answer = Deleted p /\
                findUnique prize_id prizeId' (prizes prisma) = Some p /\
                forall q, In q (prizes prisma') -> prize_id q <> prizeId')) /\
  (findUnique prize_id prizeId' (prizes prisma) = None ->
   deletePrize prizeId' prisma
   = (Thrown (ErroAoExcluirPremio PremioNaoEncontrado), prisma)).
Proof.
  unfold deletePrize. split; [|now intros ->].
  intros answer prisma'.
  destruct (findUnique prize_id prizeId' (prizes prisma)) as [existing|] eqn:Ee;
    [|discriminate].
  destruct (0 <? gamesWithPrize prizeId' prisma)%nat eqn:Ec;
    intro H; injection H as <- <-;
    destruct prisma as [us ws cs ps gs ls uls];
    cbn [games scratchCards prizes set_prizes] in *.
  - apply Nat.ltb_lt in Ec.
    split; [reflexivity|]. split; [reflexivity|].
    split; [intros k Hk; now apply findUnique_updateRows_other|].
    split; [|split; [|split]].
    + intros g p Hin Hp. unfold prizeOf in *. cbn [prizes] in *.
      destruct (prizeId g) as [k|]; [|discriminate]. cbv beta iota in *. cbn [prizes set_prizes] in *.
      destruct (String.eqb k prizeId') eqn:Ek.
      * apply String.eqb_eq in Ek. subst k. right.
        rewrite findUnique_updateRows by reflexivity. rewrite Hp. split; [|reflexivity].
        unfold findUnique in Hp. apply find_some in Hp as [_ Hp].
        now apply String.eqb_eq in Hp.
      * apply String.eqb_neq in Ek. left.
        rewrite findUnique_updateRows_other by (reflexivity || exact Ek). exact Hp.
    + intros cardId sc p Hsc Hin.
      destruct (findActiveScratchCard_prizes _ _ _ _ Hsc Hin) as (Hp & _ & Hact).
      cbn [prizes set_prizes] in Hp.
      apply updateRows_member in Hp as (a & _ & [[_ ->]|[Hne ->]]);
        [discriminate Hact|exact Hne].
    + intros _. eexists. split; [reflexivity|].
      rewrite findUnique_updateRows by reflexivity. rewrite Ee. split; reflexivity.
    + intro H0. lia.
  - apply Nat.ltb_ge in Ec.
    split; [reflexivity|]. split; [reflexivity|].
    split; [intros k Hk; now apply findUnique_filter_other|].
    split; [|split; [|split]].
    + intros g p Hin Hp. left. unfold prizeOf in *. cbn [prizes] in *.
      destruct (prizeId g) as [k|] eqn:Ek; [|discriminate]. cbv beta iota in *. cbn [prizes set_prizes] in *.
      destruct (String.eqb k prizeId') eqn:E.
      * apply String.eqb_eq in E. subst k.
        pose proof (gamesWithPrize_positive prizeId'
                      (mkDB us ws cs ps gs ls uls) g Hin Ek). lia.
      * apply String.eqb_neq in E. rewrite findUnique_filter_other by exact E.
        exact Hp.
    + intros cardId sc p Hsc Hin.
      destruct (findActiveScratchCard_prizes _ _ _ _ Hsc Hin) as (Hp & _).
      cbn [prizes set_prizes] in Hp. apply filter_In in Hp as [_ Hp].
      apply negb_true_iff, String.eqb_neq in Hp. exact Hp.
    + intro H0. lia.
    + intros _. eexists. split; [reflexivity|]. split; [reflexivity|].
      intros q Hq. apply filter_In in Hq as [_ Hq].
      now apply negb_true_iff, String.eqb_neq in Hq.
Qed.

Lemma deletePrize_keeps_won_prizes_witness :
  exists p prisma',
    deletePrize "p2" Examples.redeemable = (Returned (Deactivated p), prisma') /\
    prizeOf Examples.product_game prisma'
    = Some (deactivate_prize Examples.prize_product) /\
    games prisma' = games Examples.redeemable.
Proof.
  destruct (deletePrize_keeps_won_prizes "p2" Examples.redeemable) as [H _].
  do 2 eexists. split; [reflexivity|].
  destruct (H _ _ eq_refl) as (Hg & _ & _ & Hp & _).
  split; [|exact Hg].
  destruct (Hp Examples.product_game Examples.prize_product) as [Hs|[_ Hd]];
    [now left|reflexivity|discriminate Hs|exact Hd].
Defined.

Lemma findExistingScratchCard_Some scratchCardId d c :
  findExistingScratchCard scratchCardId d = Some c ->
  findUnique card_id scratchCardId (scratchCards d) = Some c /\ deleted_at c = None.
Proof.
  unfold findExistingScratchCard.
  destruct (findUnique card_id scratchCardId (scratchCards d)) as [x|]; [|discriminate].
  destruct (deleted_at x) eqn:E; [discriminate|].
  intro H. injection H as <-. auto.
Qed.

(** X19: after [deleteScratchCard] the card is kept with its price, rates
    and totals, is inactive, and can no longer be played: every play of
    it throws and writes nothing.  With a completed game the card is only
    deactivated ([deleted_at] stays empty); without one it is also marked
    deleted at the time of the call.  Games, prizes and the other cards
    are not written.  A card that is missing or already marked deleted
    makes the call throw and write nothing. *)
Theorem deleted_card_is_kept_and_not_played scratchCardId now prisma :
  (forall answer prisma',
     deleteScratchCard scratchCardId now prisma = (Returned answer, prisma') ->
     exists old kept,
       findUnique card_id scratchCardId (scratchCards prisma) = Some old /\
       findUnique card_id scratchCardId (scratchCards prisma') = Some kept /\
       card_is_active kept = false /\
       price kept = price old /\ target_rtp kept = target_rtp old /\
       current_rtp kept = current_rtp old /\
       total_revenue kept = total_revenue old /\
       total_payouts kept = total_payouts old /\
       total_games_played kept = total_games_played old /\
       ((0 < activeGames scratchCardId prisma)%nat ->
        answer = Deactivated kept /\ deleted_at kept = None) /\
       (activeGames scratchCardId prisma = 0%nat ->
        answer = Deleted kept /\ deleted_at kept = Some now) /\
       games prisma' = games prisma /\ prizes prisma' = prizes prisma /\
       (forall k, k <> scratchCardId ->
          findUnique card_id k (scratchCards prisma')
          = findUnique card_id k (scratchCards prisma)) /\
       findActiveScratchCard scratchCardId prisma' = None /\
       (forall userId r gameId usageId concurrent, exists e,
          playScratchCard userId scratchCardId r gameId usageId concurrent prisma'
          = (Throw (ErroAoJogarRaspadinha e), prisma'))) /\
  (findExistingScratchCard scratchCardId prisma = None ->
   deleteScratchCard scratchCardId now prisma
   = (Thrown (ErroAoExcluirRaspadinha RaspadinhaNaoEncontrada), prisma)).
Proof.
  unfold deleteScratchCard. split; [|now intros ->].
  intros answer prisma'.
  destruct (findExistingScratchCard scratchCardId prisma) as [old|] eqn:Eo;
    [|discriminate].
  apply findExistingScratchCard_Some in Eo as [Eo Hdel].
  assert (Hblocked : forall d, findActiveScratchCard scratchCardId d = None ->
            forall userId r gameId usageId concurrent, exists e,
              playScratchCard userId scratchCardId r gameId usageId concurrent d
              = (Throw (ErroAoJogarRaspadinha e), d)).
  { intros d Hd userId r gameId usageId concurrent.
    unfold playScratchCard, prepare. rewrite Hd.
    destruct (findUserWithWallet userId d) as [uw|]; [|eexists; reflexivity].
    destruct (wallet uw); eexists; reflexivity. }
  intro Heq. exists old.
  destruct (0 <? activeGames scratchCardId prisma)%nat eqn:Ec;
    injection Heq as <- <-;
    [apply Nat.ltb_lt in Ec|apply Nat.ltb_ge in Ec];
    destruct prisma as [us ws cs ps gs ls uls];
    cbn [games prizes scratchCards set_scratchCards] in *.
  - exists (deactivate_card old). split; [exact Eo|].
    assert (Hk : findUnique card_id scratchCardId
                   (updateRows card_id scratchCardId deactivate_card cs)
                 = Some (deactivate_card old))
      by (rewrite findUnique_updateRows by reflexivity; now rewrite Eo).
    split; [exact Hk|]. repeat (split; [reflexivity|]).
    split; [intros _; split; [reflexivity|exact Hdel]|].
    split; [intro H0; lia|]. split; [reflexivity|]. split; [reflexivity|].
    split; [intros k Hne; now apply findUnique_updateRows_other|].
    assert (Hnone : findActiveScratchCard scratchCardId
                      (mkDB us ws (updateRows card_id scratchCardId deactivate_card cs)
                            ps gs ls uls) = None).
    { unfold findActiveScratchCard. cbn [scratchCards]. rewrite Hk. reflexivity. }
    split; [exact Hnone|]. now apply Hblocked.
  - exists (soft_delete_card now old). split; [exact Eo|].
    assert (Hk : findUnique card_id scratchCardId
                   (updateRows card_id scratchCardId (soft_delete_card now) cs)
                 = Some (soft_delete_card now old))
      by (rewrite findUnique_updateRows by reflexivity; now rewrite Eo).
    split; [exact Hk|]. repeat (split; [reflexivity|]).
    split; [intro H0; lia|].
    split; [intros _; split; reflexivity|]. split; [reflexivity|]. split; [reflexivity|].
    split; [intros k Hne; now apply findUnique_updateRows_other|].
    assert (Hnone : findActiveScratchCard scratchCardId
                      (mkDB us ws
                            (updateRows card_id scratchCardId (soft_delete_card now) cs)
                            ps gs ls uls) = None).
    { unfold findActiveScratchCard. cbn [scratchCards]. rewrite Hk. reflexivity. }
    split; [exact Hnone|]. now apply Hblocked.
Qed.

Lemma deleted_card_is_kept_and_not_played_witness :
  exists kept prisma',
    deleteScratchCard "sc1" 1700000000 Examples.redeemable
    = (Returned (Deactivated kept), prisma') /\
    deleted_at kept = None /\
    exists e,
      playScratchCard "u1" "sc1" 50 "g1" "ul1" (fun d => d) prisma'
      = (Throw (ErroAoJogarRaspadinha e), prisma').
Proof.
  destruct (deleted_card_is_kept_and_not_played "sc1" 1700000000 Examples.redeemable)
    as [H _].
  destruct (H _ _ eq_refl)
    as (old & kept & _ & _ & _ & _ & _ & _ & _ & _ & _ & Hd & _ & _ & _ & _ & _ & Hp).
  destruct Hd as [Ha Hnone]; [vm_compute; reflexivity|].
  exists kept. eexists. split; [rewrite <- Ha; reflexivity|].
  split; [exact Hnone|]. apply Hp.
Defined.



End AdministrationProperties.

(** ** The pending redemptions *)

Module PendingRedemptions.

Import ScratchCardService UserService CardAdministration.
Import RedemptionFacts AdministrationProperties.

Lemma pending_eligible userId d g :
  pending userId d g = true ->
  eligible (game_id g) userId g = true /\ redemption_choice g = false /\
  exists p, prizeOf g d = Some p /\ prize_type_of p = "PRODUCT".
Proof.
  intro H. unfold pending in H. rewrite !andb_true_iff in H.
  destruct H as [[[[Hu Hw] Hs] Hr] Hp]. unfold eligible.
  rewrite String.eqb_refl, Hu, Hw, Hs. split; [reflexivity|].
  split; [now apply negb_true_iff in Hr|].
  destruct (prizeOf g d) as [p|]; [|discriminate].
  exists p. split; [reflexivity|]. now apply String.eqb_eq.
Qed.

Lemma findUnique_first {A} (key : A -> Id) (pred : A -> bool) (k : Id)
      (t : list A) (a : A) :
  (forall x, pred x = true -> key x = k) ->
  findUnique key k t = Some a -> pred a = true ->
  find pred t = Some a.
Proof.
  intros Hk. unfold findUnique. induction t as [|x t IH]; cbn; [discriminate|].
  destruct (String.eqb (key x) k) eqn:E.
  - intros H Hp. injection H as ->. now rewrite Hp.
  - intros H Hp. destruct (pred x) eqn:Px; [|now apply IH].
    apply Hk in Px. apply String.eqb_neq in E. contradiction.
Qed.

(** X21: the games [getPendingRedemptions] lists for a player are those
    a choice is open on.  For a listed game that is the row stored under
    its id, of a player with a wallet, choosing the product succeeds.
    Every successful choice was made on a listed game, and after it no
    game with that id is listed any more. *)
Theorem pending_redemptions_await_a_choice userId prisma :
  (forall g,
     In g (getPendingRedemptions userId prisma) ->
     findUnique game_id (game_id g) (games prisma) = Some g ->
     walletsOf g prisma <> [] ->
     exists prisma',
       chooseRedemption userId (game_id g) "product" prisma
       = (Ok (mkRedemption (chose_product g) "product"), prisma')) /\
  (forall gameId choice answer prisma',
     chooseRedemption userId gameId choice prisma = (Ok answer, prisma') ->
     (exists g, In g (getPendingRedemptions userId prisma) /\ game_id g = gameId) /\
     (forall g, In g (getPendingRedemptions userId prisma') -> game_id g <> gameId)).
Proof.
  split.
  - intros g Hin Hrow Hw. unfold getPendingRedemptions in Hin.
    apply filter_In in Hin as [_ Hp].
    apply pending_eligible in Hp as (He & Hr & p & Hp & Ht).
    assert (Hg : findEligibleGame (game_id g) userId prisma = Some g).
    { unfold findEligibleGame.
      apply (findUnique_first game_id _ (game_id g)); try assumption.
      intros x Hx. now apply eligible_key with userId. }
    unfold chooseRedemption, transaction, redemptionTransaction, bind, query.
    rewrite Hg. cbv beta iota. rewrite Hp. cbv beta iota. rewrite Ht, Hr.
    cbn [String.eqb Ascii.eqb Bool.eqb negb andb].
    destruct (walletsOf g prisma) as [|w ws]; [contradiction|]. cbv beta iota.
    unfold game_update, update, ret. rewrite Hrow. eexists. reflexivity.
  - intros gameId choice answer prisma'. unfold chooseRedemption.
    destruct (transaction _ prisma) as [result d] eqn:T.
    intro H. injection H as Hr <-.
    destruct result as [a|e]; [|discriminate]. injection Hr as ->.
    apply transaction_Ok, redemptionTransaction_Ok in T
      as (game & prize & Hg & Hp & Ht & Hc & _ & Hcase).
    unfold findEligibleGame in Hg. apply find_some in Hg as [Hin He].
    split.
    + exists game. split; [|now apply eligible_key with userId].
      unfold getPendingRedemptions. apply filter_In. split; [exact Hin|].
      unfold pending. unfold eligible in He.
      apply andb_true_iff in He as [He Hs]. apply andb_true_iff in He as [He Hw].
      apply andb_true_iff in He as [_ Hu].
      rewrite Hu, Hw, Hs, Hc, Hp, Ht. reflexivity.
    + intros g Hg'. unfold getPendingRedemptions in Hg'.
      apply filter_In in Hg' as [Hin' Hp'].
      apply pending_eligible in Hp' as (He' & Hr' & _).
      unfold eligible in He'. apply andb_true_iff in He' as [_ Hs'].
      apply String.eqb_eq in Hs'.
      destruct Hcase as [(_ & Hgames)|(_ & Hgames & _)];
        rewrite Hgames in Hin';
        apply updateRows_member in Hin' as (x & _ & [[_ ->]|[Hne ->]]);
        try exact Hne; cbn in Hr', Hs'; discriminate.
Qed.

Lemma pending_redemptions_await_a_choice_witness :
  getPendingRedemptions "u1" Examples.redeemable = [Examples.product_game] /\
  (exists prisma',
     chooseRedemption "u1" "g7" "product" Examples.redeemable
     = (Ok (mkRedemption (chose_product Examples.product_game) "product"), prisma')) /\
  getPendingRedemptions "u1"
    (snd (chooseRedemption "u1" "g7" "money" Examples.redeemable)) = [].
Proof.
  destruct (pending_redemptions_await_a_choice "u1" Examples.redeemable) as [H1 H2].
  split; [reflexivity|]. split.
  - apply (H1 Examples.product_game); [now left|reflexivity|discriminate].
  - vm_compute. reflexivity.
Defined.

End PendingRedemptions.

(** ** Withdrawals and deposits *)

Module LedgerProperties.

Import ScratchCardService Ledger.

Lemma find_updateRows_pred {A} (key : A -> Id) (pred : A -> bool) k f (t : list A) :
  (forall a, pred (f a) = pred a) ->
  find pred (updateRows key k f t)
  = option_map (fun a => if String.eqb (key a) k then f a else a) (find pred t).
Proof.
  intro Hf. unfold updateRows. induction t as [|a t IH]; cbn; [reflexivity|].
  destruct (String.eqb (key a) k) eqn:E.
  - rewrite Hf. destruct (pred a); [cbn; now rewrite E | exact IH].
  - destruct (pred a); [cbn; now rewrite E| exact IH].
Qed.

Lemma updateRows_same {A} (key : A -> Id) k (f : A -> A) (t : list A) :
  (forall a, f a = a) -> updateRows key k f t = t.
Proof.
  intro H. unfold updateRows. induction t as [|a t IH]; cbn; [reflexivity|].
  rewrite IH. destruct (String.eqb _ _); [rewrite H|]; reflexivity.
Qed.

Lemma findUnique_createRow {A} (key : A -> Id) k (a : A) t :
  findUnique key k (createRow a t) =
  match findUnique key k t with
  | Some x => Some x
  | None => if String.eqb (key a) k then Some a else None
  end.
Proof.
  unfold findUnique, createRow. induction t as [|x t IH]; cbn; [reflexivity|].
  destruct (String.eqb (key x) k); [reflexivity|exact IH].
Qed.

Lemma createWithdraw_Done userId amount newId prisma w prisma' :
  createWithdraw userId amount newId prisma = (Done w, prisma') ->
  exists uw wallet0 rest stored,
    findUserWithWallet userId (core prisma) = Some uw /\
    wallet uw = wallet0 :: rest /\
    10 <= amount /\ amount <= balance wallet0 /\
    findUnique wallet_id (wallet_id wallet0) (wallets (core prisma)) = Some stored /\
    w = mkWithdraw newId userId (wallet_id wallet0) amount false /\
    prisma' = mkBank (set_wallets (updateRows wallet_id (wallet_id wallet0)
                                     (decrement_balance amount)) (core prisma))
                     (createRow w (withdraws prisma)) (deposits prisma).
Proof.
  unfold createWithdraw.
  destruct (findUserWithWallet userId (core prisma)) as [uw|] eqn:Eu; [|discriminate].
  destruct (wallet uw) as [|wallet0 rest] eqn:Ew; [discriminate|].
  destruct (Qltb (balance wallet0) amount) eqn:Eb; [discriminate|].
  destruct (Qltb amount 10) eqn:Em; [discriminate|].
  unfold bankTransaction, onCore, wallet_update, user_update.
  cbn [core withdraws deposits].
  destruct (update wallets set_wallets wallet_id (wallet_id wallet0)
              (decrement_balance amount) (core prisma)) as [[a d]|e] eqn:U1;
    [|discriminate].
  apply update_Ok in U1 as (stored & Es & -> & ->).
  cbn [core withdraws deposits].
  destruct (update users set_users user_id userId (fun u => u) _) as [[a2 d2]|e] eqn:U2;
    [|discriminate].
  apply update_Ok in U2 as (u0 & Eu0 & -> & ->).
  cbn. intro H. injection H as <- <-.
  exists uw, wallet0, rest, stored.
  apply Qltb_false_iff in Eb, Em.
  split; [reflexivity|]. split; [exact Ew|]. split; [exact Em|].
  split; [exact Eb|]. split; [exact Es|]. split; [reflexivity|].
  f_equal. unfold set_users, set_wallets.
  cbn [users wallets scratchCards prizes games licenses usageLicenses].
  rewrite (updateRows_same user_id) by reflexivity. reflexivity.
Qed.

Lemma createWithdraw_Failed userId amount newId prisma f prisma' :
  createWithdraw userId amount newId prisma = (Failed f, prisma') ->
  prisma' = prisma /\ exists cause, f = ErroAoCriarSolicitacaoDeSaque cause.
Proof.
  unfold createWithdraw, bankTransaction.
  repeat match goal with
         | |- context [match ?x with _ => _ end] => destruct x
         | |- context [if ?x then _ else _] => destruct x
         end; cbn; intro H; inversion H; subst; split; eauto.
Qed.



Lemma head_filter {A} (pred : A -> bool) (t : list A) :
  head (filter pred t) = find pred t.
Proof.
  induction t as [|a t IH]; cbn; [reflexivity|].
  destruct (pred a); [reflexivity|exact IH].
Qed.

Lemma findUnique_key {A} (key : A -> Id) k (t : list A) a :
  findUnique key k t = Some a -> key a = k.
Proof.
  unfold findUnique. intro H. apply find_some in H as [_ H].
  now apply String.eqb_eq.
Qed.

Lemma findUnique_present {A} (key : A -> Id) (t : list A) a :
  In a t -> exists x, findUnique key (key a) t = Some x.
Proof.
  unfold findUnique. intro H.
  destruct (find (fun x => String.eqb (key x) (key a)) t) as [x|] eqn:E; [eauto|].
  apply (find_none _ _ E) in H. now rewrite String.eqb_refl in H.
Qed.

(** X23: [createWithdraw] decides on the first wallet of the user as
    read before the transaction.  A balance below the amount is refused
    with 'Saldo insuficiente para saque'; an amount the balance covers
    but below 10 is refused with 'Valor mínimo para saque é R$ 10,00';
    an amount of at least 10 that the balance covers is granted.  Every
    refusal is wrapped in 'Erro ao criar solicitação de saque' and
    leaves the store as it was. *)
Theorem createWithdraw_decides userId amount newId prisma :
  (forall f prisma',
     createWithdraw userId amount newId prisma = (Failed f, prisma') ->
     prisma' = prisma /\ exists cause, f = ErroAoCriarSolicitacaoDeSaque cause) /\
  (forall uw wallet0,
     findUserWithWallet userId (core prisma) = Some uw ->
     head (wallet uw) = Some wallet0 ->
     (balance wallet0 < amount ->
      createWithdraw userId amount newId prisma
      = (Failed (ErroAoCriarSolicitacaoDeSaque SaldoInsuficienteParaSaque), prisma)) /\
     (amount <= balance wallet0 -> amount < 10 ->
      createWithdraw userId amount newId prisma
      = (Failed (ErroAoCriarSolicitacaoDeSaque ValorMinimoParaSaque), prisma)) /\
     (amount <= balance wallet0 -> 10 <= amount ->
      exists prisma',
        createWithdraw userId amount newId prisma
        = (Done (mkWithdraw newId userId (wallet_id wallet0) amount false), prisma'))).
Proof.
  split; [intros f prisma'; apply createWithdraw_Failed|].
  intros uw wallet0 Eu Eh. unfold createWithdraw. rewrite Eu.
  destruct (wallet uw) as [|w0 rest] eqn:Ew; [discriminate|].
  injection Eh as ->.
  split; [|split].
  - intro H. apply Qltb_iff in H. now rewrite H.
  - intros Hb Hm. apply Qltb_false_iff in Hb. apply Qltb_iff in Hm.
    now rewrite Hb, Hm.
  - intros Hb Hm. apply Qltb_false_iff in Hb, Hm. rewrite Hb, Hm.
    assert (In wallet0 (wallets (core prisma))) as Hin.
    { pose proof Eu as Eu'. unfold findUserWithWallet in Eu'.
      destruct (findUnique user_id userId (users (core prisma))); [|discriminate].
      injection Eu' as <-. cbn in Ew.
      assert (In wallet0 (wallet0 :: rest)) as Hin by now left.
      rewrite <- Ew in Hin. now apply filter_In in Hin. }
    apply (findUnique_present wallet_id) in Hin as [stored Es].
    apply Play.findUserWithWallet_user in Eu.
    unfold bankTransaction, onCore, wallet_update, user_update, update.
    cbn [core withdraws deposits]. rewrite Es.
    cbn [core withdraws deposits users set_wallets]. rewrite Eu.
    cbn. eexists. reflexivity.
Qed.

Lemma createWithdraw_decides_witness :
  createWithdraw "u1" 30 "wd9" bank_with_funds
  = (Failed (ErroAoCriarSolicitacaoDeSaque SaldoInsuficienteParaSaque),
     bank_with_funds) /\
  createWithdraw "u1" 5 "wd9" bank_with_funds
  = (Failed (ErroAoCriarSolicitacaoDeSaque ValorMinimoParaSaque), bank_with_funds) /\
  exists prisma',
    createWithdraw "u1" 20 "wd9" bank_with_funds
    = (Done (mkWithdraw "wd9" "u1" "w1" 20 false), prisma').
Proof.
  pose (wallet0 := increment_balance 20 Examples.alice_wallet).
  pose (uw := mkUserWithWallet Examples.alice [wallet0]).
  split; [|split].
  - destruct (createWithdraw_decides "u1" 30 "wd9" bank_with_funds) as [_ H].
    destruct (H uw wallet0 eq_refl eq_refl) as (H1 & _ & _).
    apply H1. vm_compute. reflexivity.
  - destruct (createWithdraw_decides "u1" 5 "wd9" bank_with_funds) as [_ H].
    destruct (H uw wallet0 eq_refl eq_refl) as (_ & H2 & _).
    apply H2; [discriminate|vm_compute; reflexivity].
  - destruct (createWithdraw_decides "u1" 20 "wd9" bank_with_funds) as [_ H].
    destruct (H uw wallet0 eq_refl eq_refl) as (_ & _ & H3).
    apply H3; discriminate.
Defined.

Lemma rejectWithdrawal_Done withdrawalId prisma w stored :
  findUnique withdraw_id withdrawalId (withdraws prisma) = Some w ->
  withdraw_status w = false ->
  findUnique wallet_userId (withdraw_userId w) (wallets (core prisma)) = Some stored ->
  rejectWithdrawal withdrawalId prisma
  = (Done (rejected w),
     mkBank (set_wallets (updateRows wallet_userId (withdraw_userId w)
                            (increment_balance (withdraw_amount w))) (core prisma))
            (updateRows withdraw_id withdrawalId rejected (withdraws prisma))
            (deposits prisma)).
Proof.
  intros E S W.
  unfold rejectWithdrawal, bankTransaction, onCore, wallet_update_of_user, update.
  rewrite E, S. cbn [core withdraws deposits]. rewrite W. reflexivity.
Qed.

(** X24: [rejectWithdrawal] on a pending withdrawal gives its amount
    back to the wallet of its user and sets the amount of the withdrawal
    to 0, its status staying [false].  The withdrawal is therefore still
    pending: a second rejection succeeds as well and gives back 0, so the
    amount is refunded once. *)
Theorem rejectWithdrawal_refunds_once withdrawalId prisma w stored :
  findUnique withdraw_id withdrawalId (withdraws prisma) = Some w ->
  withdraw_status w = false ->
  findUnique wallet_userId (withdraw_userId w) (wallets (core prisma)) = Some stored ->
  exists prisma1 prisma2 refunded,
    rejectWithdrawal withdrawalId prisma = (Done (rejected w), prisma1) /\
    findUnique withdraw_id withdrawalId (withdraws prisma1) = Some (rejected w) /\
    findUnique wallet_userId (withdraw_userId w) (wallets (core prisma1))
    = Some (increment_balance (withdraw_amount w) stored) /\
    rejectWithdrawal withdrawalId prisma1 = (Done (rejected w), prisma2) /\
    findUnique wallet_userId (withdraw_userId w) (wallets (core prisma2))
    = Some refunded /\
    balance refunded == balance stored + withdraw_amount w.
Proof.
  intros E S W.
  pose proof (rejectWithdrawal_Done _ _ _ _ E S W) as R1.
  set (prisma1 := mkBank _ _ _) in R1.
  assert (findUnique withdraw_id withdrawalId (withdraws prisma1) = Some (rejected w))
    as E1.
  { subst prisma1. cbn [withdraws].
    rewrite findUnique_updateRows by reflexivity. now rewrite E. }
  assert (findUnique wallet_userId (withdraw_userId w) (wallets (core prisma1))
          = Some (increment_balance (withdraw_amount w) stored)) as W1.
  { subst prisma1. unfold set_wallets. cbn [core wallets].
    rewrite findUnique_updateRows by reflexivity. now rewrite W. }
  pose proof (rejectWithdrawal_Done withdrawalId prisma1 (rejected w) _ E1 eq_refl W1)
    as R2.
  set (prisma2 := mkBank _ _ _) in R2.
  exists prisma1, prisma2,
    (increment_balance 0 (increment_balance (withdraw_amount w) stored)).
  split; [exact R1|]. split; [exact E1|]. split; [exact W1|].
  split; [exact R2|]. split.
  - subst prisma2. unfold set_wallets. cbn [core wallets rejected withdraw_userId
      withdraw_amount].
    rewrite findUnique_updateRows by reflexivity.
    cbn [rejected withdraw_userId] in W1. now rewrite W1.
  - cbn. ring.
Qed.

Lemma rejectWithdrawal_refunds_once_witness :
  exists prisma1 prisma2 refunded,
    rejectWithdrawal "wd1" bank = (Done (rejected pending_withdraw), prisma1) /\
    rejectWithdrawal "wd1" prisma1 = (Done (rejected pending_withdraw), prisma2) /\
    findUnique wallet_userId "u1" (wallets (core prisma2)) = Some refunded /\
    balance refunded == 5 + 20.
Proof.
  destruct (rejectWithdrawal_refunds_once "wd1" bank pending_withdraw
              Examples.alice_wallet eq_refl eq_refl eq_refl)
    as (p1 & p2 & r & H1 & _ & _ & H2 & H3 & H4).
  exists p1, p2, r. split; [exact H1|]. split; [exact H2|].
  split; [exact H3|exact H4].
Defined.

(** X25: a withdrawal that is created under a fresh id and then
    rejected leaves the wallet of the user with the balance it had before
    the request. *)
Theorem rejected_withdrawal_restores_the_balance
    userId amount newId prisma w prisma1 :
  createWithdraw userId amount newId prisma = (Done w, prisma1) ->
  findUnique withdraw_id newId (withdraws prisma) = None ->
  exists before after prisma2,
    findUnique wallet_userId userId (wallets (core prisma)) = Some before /\
    rejectWithdrawal newId prisma1 = (Done (rejected w), prisma2) /\
    findUnique wallet_userId userId (wallets (core prisma2)) = Some after /\
    wallet_id after = wallet_id before /\
    balance after == balance before /\
    findUnique withdraw_id newId (withdraws prisma2) = Some (rejected w).
Proof.
  intros H Hfresh.
  apply createWithdraw_Done in H
    as (uw & wallet0 & rest & stored & Eu & Ew & Hm & Hb & Es & -> & ->).
  assert (findUnique wallet_userId userId (wallets (core prisma)) = Some wallet0)
    as Ef.
  { unfold findUserWithWallet in Eu.
    destruct (findUnique user_id userId (users (core prisma))); [|discriminate].
    injection Eu as <-. cbn in Ew. unfold findUnique.
    rewrite <- head_filter, Ew. reflexivity. }
  set (w := mkWithdraw newId userId (wallet_id wallet0) amount false).
  set (prisma1 := mkBank _ _ _).
  assert (findUnique withdraw_id newId (withdraws prisma1) = Some w) as E1.
  { subst prisma1. cbn [withdraws]. rewrite findUnique_createRow, Hfresh.
    cbn. now rewrite String.eqb_refl. }
  assert (findUnique wallet_userId (withdraw_userId w) (wallets (core prisma1))
          = Some (decrement_balance amount wallet0)) as W1.
  { subst prisma1. unfold set_wallets. cbn [core wallets w withdraw_userId].
    unfold findUnique at 1. rewrite find_updateRows_pred by reflexivity.
    fold (findUnique wallet_userId userId (wallets (core prisma))).
    rewrite Ef. cbn. now rewrite String.eqb_refl. }
  pose proof (rejectWithdrawal_Done newId prisma1 w _ E1 eq_refl W1) as R.
  set (prisma2 := mkBank _ _ _) in R.
  exists wallet0, (increment_balance amount (decrement_balance amount wallet0)), prisma2.
  split; [exact Ef|]. split; [exact R|]. split; [|split; [reflexivity|split]].
  - subst prisma2. unfold set_wallets. cbn [core wallets w withdraw_userId
      withdraw_amount].
    rewrite findUnique_updateRows by reflexivity.
    cbn [w withdraw_userId] in W1. now rewrite W1.
  - cbn. ring.
  - subst prisma2. cbn [withdraws].
    rewrite findUnique_updateRows by reflexivity. now rewrite E1.
Qed.

Lemma rejected_withdrawal_restores_the_balance_witness :
  exists before after prisma2,
    findUnique wallet_userId "u1" (wallets (core bank_with_funds)) = Some before /\
    rejectWithdrawal "wd9" (snd (createWithdraw "u1" 20 "wd9" bank_with_funds))
    = (Done (rejected (mkWithdraw "wd9" "u1" "w1" 20 false)), prisma2) /\
    findUnique wallet_userId "u1" (wallets (core prisma2)) = Some after /\
    balance after == balance before.
Proof.
  destruct (rejected_withdrawal_restores_the_balance "u1" 20 "wd9" bank_with_funds
              (mkWithdraw "wd9" "u1" "w1" 20 false)
              (snd (createWithdraw "u1" 20 "wd9" bank_with_funds)))
    as (b & a & p2 & H1 & H2 & H3 & _ & H5 & _);
    [vm_compute; reflexivity|reflexivity|].
  exists b, a, p2. split; [exact H1|]. split; [exact H2|].
  split; [exact H3|exact H5].
Defined.



Lemma approveDeposit_Done depositId prisma d stored :
  findUnique deposit_id depositId (deposits prisma) = Some d ->
  deposit_status d = false ->
  findUnique wallet_userId (deposit_userId d) (wallets (core prisma)) = Some stored ->
  approveDeposit depositId prisma
  = (Done (confirmed d),
     mkBank (set_wallets (updateRows wallet_userId (deposit_userId d)
                            (increment_balance (deposit_amount d))) (core prisma))
            (withdraws prisma)
            (updateRows deposit_id depositId confirmed (deposits prisma))).
Proof.
  intros E S W.
  unfold approveDeposit, bankTransaction, onCore, wallet_update_of_user, update.
  rewrite E, S. cbn [core withdraws deposits]. rewrite W. reflexivity.
Qed.

(** X27: [approveDeposit] on a pending deposit adds its amount to the
    wallet of its user and sets its status to [true]; a second approval
    and a later rejection throw and write nothing.  When the user has no
    wallet the update of the wallet throws, and the transaction drops the
    change of status with it. *)
Theorem approveDeposit_credits_once depositId prisma d :
  findUnique deposit_id depositId (deposits prisma) = Some d ->
  deposit_status d = false ->
  (forall stored,
     findUnique wallet_userId (deposit_userId d) (wallets (core prisma)) = Some stored ->
     exists prisma1,
       approveDeposit depositId prisma = (Done (confirmed d), prisma1) /\
       findUnique wallet_userId (deposit_userId d) (wallets (core prisma1))
       = Some (increment_balance (deposit_amount d) stored) /\
       findUnique deposit_id depositId (deposits prisma1) = Some (confirmed d) /\
       approveDeposit depositId prisma1
       = (Failed ApenasDepositosPendentesAprovados, prisma1) /\
       rejectDeposit depositId prisma1
       = (Failed ApenasDepositosPendentesRejeitados, prisma1)) /\
  (findUnique wallet_userId (deposit_userId d) (wallets (core prisma)) = None ->
   approveDeposit depositId prisma = (Failed (Core RecordNotFound), prisma)).
Proof.
  intros E S. split.
  - intros stored W. eexists. split; [exact (approveDeposit_Done _ _ _ _ E S W)|].
    assert (findUnique deposit_id depositId
              (updateRows deposit_id depositId confirmed (deposits prisma))
            = Some (confirmed d)) as E1.
    { rewrite findUnique_updateRows by reflexivity. now rewrite E. }
    cbn [core deposits withdraws].
    split; [|split; [exact E1|split]].
    + unfold set_wallets. cbn [wallets].
      rewrite findUnique_updateRows by reflexivity. now rewrite W.
    + unfold approveDeposit, bankTransaction. cbn [deposits]. now rewrite E1.
    + unfold rejectDeposit. cbn [deposits]. now rewrite E1.
  - intro W. unfold approveDeposit, bankTransaction, onCore, wallet_update_of_user,
      update.
    rewrite E, S. cbn [core withdraws deposits]. now rewrite W.
Qed.

Lemma approveDeposit_credits_once_witness :
  (exists prisma1,
     approveDeposit "dp1" bank = (Done (confirmed pending_deposit), prisma1) /\
     findUnique wallet_userId "u1" (wallets (core prisma1))
     = Some (increment_balance 50 Examples.alice_wallet) /\
     approveDeposit "dp1" prisma1
     = (Failed ApenasDepositosPendentesAprovados, prisma1)) /\
  approveDeposit "dp2" bank = (Failed (Core RecordNotFound), bank).
Proof.
  split.
  - destruct (approveDeposit_credits_once "dp1" bank pending_deposit eq_refl eq_refl)
      as [H _].
    destruct (H Examples.alice_wallet eq_refl) as (p1 & H1 & H2 & _ & H4 & _).
    exists p1. split; [exact H1|]. split; [exact H2|exact H4].
  - destruct (approveDeposit_credits_once "dp2" bank orphan_deposit eq_refl eq_refl)
      as [_ H].
    apply H. reflexivity.
Defined.

(** X28: [rejectDeposit] succeeds on pending deposits only and writes
    no column kept here: the deposit keeps status [false] and its amount,
    every lookup of a deposit answers as before, and no wallet is
    touched.  A rejected deposit can therefore still be approved, with
    the same answer and the same balances as without the rejection. *)
Theorem rejected_deposit_stays_pending depositId prisma d prisma1 :
  rejectDeposit depositId prisma = (Done d, prisma1) ->
  findUnique deposit_id depositId (deposits prisma) = Some d /\
  deposit_status d = false /\
  core prisma1 = core prisma /\
  withdraws prisma1 = withdraws prisma /\
  (forall k, findUnique deposit_id k (deposits prisma1)
             = findUnique deposit_id k (deposits prisma)) /\
  fst (approveDeposit depositId prisma1) = fst (approveDeposit depositId prisma) /\
  core (snd (approveDeposit depositId prisma1))
  = core (snd (approveDeposit depositId prisma)).
Proof.
  unfold rejectDeposit.
  destruct (findUnique deposit_id depositId (deposits prisma)) as [d0|] eqn:E;
    [|discriminate].
  destruct (deposit_status d0) eqn:S; [discriminate|].
  intro H. injection H as <- <-.
  assert (unconfirmed d0 = d0) as Hd.
  { destruct d0; cbn in *. now subst. }
  rewrite Hd.
  assert (forall k, findUnique deposit_id k
                      (updateRows deposit_id depositId unconfirmed (deposits prisma))
                    = findUnique deposit_id k (deposits prisma)) as Hk.
  { intro k. destruct (string_dec k depositId) as [->|Hne].
    - rewrite findUnique_updateRows by reflexivity. rewrite E. cbn. now rewrite Hd.
    - now apply findUnique_updateRows_other. }
  cbn [core withdraws deposits].
  split; [reflexivity|]. split; [exact S|]. split; [reflexivity|].
  split; [reflexivity|]. split; [exact Hk|].
  unfold approveDeposit, bankTransaction, onCore. cbn [core withdraws deposits].
  rewrite Hk, E, S.
  destruct (wallet_update_of_user (deposit_userId d0)
              (increment_balance (deposit_amount d0)) (core prisma)) as [[a c]|e];
    cbn; split; reflexivity.
Qed.

Lemma rejected_deposit_stays_pending_witness :
  deposit_status pending_deposit = false /\
  fst (approveDeposit "dp1" (snd (rejectDeposit "dp1" bank)))
  = fst (approveDeposit "dp1" bank).
Proof.
  destruct (rejected_deposit_stays_pending "dp1" bank pending_deposit
              (snd (rejectDeposit "dp1" bank)))
    as (_ & H1 & _ & _ & _ & H2 & _); [vm_compute; reflexivity|].
  split; [exact H1|exact H2].
Defined.

End LedgerProperties.
